(** * Analytics routes of the reporting backend (routes/analytics.ts)

    A shallow embedding of the Express handlers mounted under
    /api/analytics and of the fragments of the JavaScript runtime and of
    the supabase (postgrest-js) query builder they rely on.

    Conventions of the embedding.
    - Instants are integers: milliseconds since the Unix epoch, in UTC.  A
      timestamp column read from the store is such an integer, and so is the
      text produced by [toISOString] (the ISO text and the instant determine
      each other).  The part of that text before the 'T' is represented by the
      number of the UTC calendar day, [utcDay].
    - Texts are byte strings: the UTF-8 encoding of the JavaScript string.
    - The Node process runs with UTC as its local time zone (the container
      image sets none), so [setDate] moves an instant by whole days.
    - Arithmetic on row counts is exact: the quotient in [completionRate] is a
      rational number, where the handler computes it on binary64 numbers.
      [Binary64.completionRate] is the same expression on binary64 numbers;
      the two differ by one where the percentage is an exact half that the
      binary64 product falls short of (23 of 40), and nowhere else for totals
      up to 200.
    - A query fails or answers by its table and its parameters ([Backend]);
      a [Store] is the backend all of whose queries answer, or all of whose
      queries fail with the same error.
    - Six of the seven routes are embedded; GET /late-tasks, which returns
      rows without aggregating them, is left out. *)

From stdpp Require Import base option list gmap strings pretty.
From Stdlib Require Import ZArith QArith Qround Lia Ascii.
From Stdlib Require PrimFloat FloatOps SpecFloat Uint63.

Local Open Scope string_scope.
Local Open Scope list_scope.
Local Open Scope Z_scope.

(** ** Fragments of the JavaScript runtime *)

Module Js.

Definition msPerDay : Z := 86400000.
Definition maxTime : Z := 8640000000000000.

(** The time value of a Date object; [None] is NaN, an "Invalid Date". *)
Definition Date : Type := option Z.

Definition TimeClip (t : Z) : Date :=
  if Z.abs t <=? maxTime then Some t else None.

(** A JavaScript number that holds an integer or NaN ([None]). *)
Definition Num : Type := option Z.

(** [d.setDate(d.getDate() + n)] with UTC as the local time zone. *)
Definition addDays (d : Date) (n : Num) : Date :=
  match d, n with
  | Some t, Some k => TimeClip (t + k * msPerDay)
  | _, _ => None
  end.

(** Values a handler can throw: an [Error] with its message, or anything else. *)
Inductive Thrown : Type :=
| Error (message : string)
| NotAnError.

(** [d.toISOString()] raises a RangeError on an invalid date. *)
Definition toISOString (d : Date) : Thrown + Z :=
  match d with
  | Some t => inr t
  | None => inl (Error "Invalid time value")
  end.

(** [iso.split('T')[0]]: the UTC calendar day of an instant. *)
Definition utcDay (t : Z) : Z := t / msPerDay.

(** [d.getDay()]: 0 is Sunday; the epoch fell on a Thursday. *)
Definition getDay (t : Z) : Z := (utcDay t + 4) mod 7.

(** The white space and line terminators of one byte: U+0009 to U+000D and
    U+0020. *)
Definition isWhiteSpace (c : ascii) : bool :=
  let n := nat_of_ascii c in
  ((9 <=? n)%nat && (n <=? 13)%nat) || (n =? 32)%nat.

(** The white space of two bytes: U+00A0 (C2 A0). *)
Definition isWhiteSpace2 (c1 c2 : ascii) : bool :=
  (nat_of_ascii c1 =? 194)%nat && (nat_of_ascii c2 =? 160)%nat.

(** The white space and line terminators of three bytes: U+1680 (E1 9A 80),
    U+2000 to U+200A (E2 80 80 to E2 80 8A), U+2028 and U+2029 (E2 80 A8,
    E2 80 A9), U+202F (E2 80 AF), U+205F (E2 81 9F), U+3000 (E3 80 80) and
    U+FEFF (EF BB BF). *)
Definition isWhiteSpace3 (c1 c2 c3 : ascii) : bool :=
  let a := nat_of_ascii c1 in
  let b := nat_of_ascii c2 in
  let c := nat_of_ascii c3 in
  ((a =? 225) && (b =? 154) && (c =? 128))%nat
  || ((a =? 226) && (b =? 128)
      && (((128 <=? c) && (c <=? 138)) || (c =? 168) || (c =? 169) || (c =? 175)))%nat
  || ((a =? 226) && (b =? 129) && (c =? 159))%nat
  || ((a =? 227) && (b =? 128) && (c =? 128))%nat
  || ((a =? 239) && (b =? 187) && (c =? 191))%nat.

(** Drops the leading white space and line terminators of a text. *)
Fixpoint trimStart (s : string) : string :=
  match s with
  | String c1 s1 =>
      if isWhiteSpace c1 then trimStart s1
      else
        match s1 with
        | String c2 s2 =>
            if isWhiteSpace2 c1 c2 then trimStart s2
            else
              match s2 with
              | String c3 s3 => if isWhiteSpace3 c1 c2 c3 then trimStart s3 else s
              | EmptyString => s
              end
        | EmptyString => s
        end
  | EmptyString => s
  end.

Definition digitValue (c : ascii) : option Z :=
  let n := nat_of_ascii c in
  if ((48 <=? n)%nat && (n <=? 57)%nat) then Some (Z.of_nat n - 48) else None.

(** The value of the longest prefix of decimal digits; [acc] is [None]
    until a first digit has been read. *)
Fixpoint digits (s : string) (acc : option Z) : option Z :=
  match s with
  | String c s' =>
      match digitValue c with
      | Some d => digits s' (Some (10 * default 0 acc + d))
      | None => acc
      end
  | EmptyString => acc
  end.

(** [parseInt(s, 10)]: leading white space and line terminators are
    dropped, then come an optional sign and the longest run of decimal
    digits; NaN without a digit. *)
Definition parseInt (s : string) : Num :=
  match trimStart s with
  | String "-" s' => Z.opp <$> digits s' None
  | String "+" s' => digits s' None
  | s' => digits s' None
  end.

(** [Math.round]: the nearest integer, a tie going up. *)
Definition Math_round (x : Q) : Z := Qfloor (x + (1 # 2))%Q.

End Js.

(** ** The record store and the postgrest-js query builder *)

Module Postgrest.

(** A cell of a row. Instants are [VTime]; SQL NULL is [VNull]. *)
Inductive Value : Type :=
| VNull
| VText (s : string)
| VNum (n : Z)
| VBool (b : bool)
| VTime (ms : Z).

Inductive Op : Type := op_eq | op_neq | op_lt | op_lte | op_gt | op_gte.

(** One condition [column.op.value]. *)
Record Cond : Type := mkCond { c_col : string; c_op : Op; c_val : Value }.

(** One search parameter of the request URL: a condition, or the
    disjunction built by [.or('a.eq.x,b.eq.x')]. The store takes the
    conjunction of all the parameters of a request. *)
Inductive Filter : Type :=
| Where (c : Cond)
| AnyOf (cs : list Cond).

(** Comparison of two cells of the same type; NULL compares with nothing. *)
Definition compareValues (a b : Value) : option comparison :=
  match a, b with
  | VText x, VText y => Some (String.compare x y)
  | VNum x, VNum y => Some (x ?= y)
  | VTime x, VTime y => Some (x ?= y)
  | VBool x, VBool y => Some (Nat.compare (Nat.b2n x) (Nat.b2n y))
  | _, _ => None
  end.

Definition holds (o : Op) (c : comparison) : bool :=
  match o, c with
  | op_eq, Eq => true
  | op_neq, (Lt | Gt) => true
  | op_lt, Lt => true
  | op_lte, (Lt | Eq) => true
  | op_gt, Gt => true
  | op_gte, (Gt | Eq) => true
  | _, _ => false
  end.

Section Rows.

Context {R : Type} (cell : R → string → Value).

Definition condHolds (r : R) (c : Cond) : bool :=
  match compareValues (cell r (c_col c)) (c_val c) with
  | Some cmp => holds (c_op c) cmp
  | None => false
  end.

Definition filterHolds (r : R) (f : Filter) : bool :=
  match f with
  | Where c => condHolds r c
  | AnyOf cs => existsb (condHolds r) cs
  end.

Definition selected (params : list Filter) (rows : list R) : list R :=
  List.filter (λ r, forallb (filterHolds r) params) rows.

End Rows.

(** A query builder is one mutable object. [select] creates it; each filter
    method of postgrest-js ([eq], [neq], [lt], [gte], [lte], [or]) appends a
    search parameter to the URL the builder holds and returns [this]; and
    awaiting the builder sends a request for the URL as it is at that moment,
    every time it is awaited. [b_count] is the option [count: 'exact'],
    [b_head] the option [head]. *)
Record Builder : Type :=
  mkBuilder { b_count : bool; b_head : bool; b_params : list Filter }.

Definition addParam (f : Filter) (b : Builder) : Builder :=
  mkBuilder (b_count b) (b_head b) (b_params b ++ [f]).

(** What awaiting a builder resolves to. [error] is the message of the
    error object. *)
Record Result (R : Type) : Type :=
  mkResult { data : option (list R); count : option nat; error : option string }.
Arguments mkResult {R}.
Arguments data {R}.
Arguments count {R}.
Arguments error {R}.

End Postgrest.

Import Js Postgrest.

(** ** The tables

    The handlers read three tables. A row is a record; [Table] gives the
    view of it the store filters on, column by column. *)

Record Task : Type := mkTask {
  t_id : string;
  t_status : string;
  t_priority : string;
  t_assigned_to : option string;
  t_created_by : option string;
  t_created_at : Z;
  t_updated_at : option Z;
  t_due_date : option Z;
  t_deadline : option Z;
  t_completed_at : option Z;
  t_late_completion : bool
}.

Record Issue : Type := mkIssue {
  i_id : string;
  i_status : string;
  i_priority : string;
  i_reported_by : option string;
  i_suggested_assignee_id : option string;
  i_assigned_to : option string;
  i_created_at : option Z;
  i_resolved_at : option Z
}.

Record Profile : Type := mkProfile {
  p_id : string;
  p_full_name : string;
  p_email : string;
  p_role : string;
  p_job_description : option string;
  p_score : option Z;
  p_weekly_hours : option Z;
  p_avatar_url : option string
}.

Record Database : Type := mkDatabase {
  tasks : list Task;
  issues : list Issue;
  profiles : list Profile
}.

(** The store answers every query of a request from [db], or, when
    [outage] is set, answers every query with that error and no data. *)
Record Store : Type := mkStore { db : Database; outage : option string }.

Definition textOf (o : option string) : Value := from_option VText VNull o.
Definition timeOf (o : option Z) : Value := from_option VTime VNull o.
Definition numOf (o : option Z) : Value := from_option VNum VNull o.

Fixpoint lookupCol (col : string) (cells : list (string * Value)) : Value :=
  match cells with
  | [] => VNull
  | (c, v) :: rest => if String.eqb c col then v else lookupCol col rest
  end.

Class Table (R : Type) : Type := {
  tableName : string;
  cell : R → string → Value;
  rowsOf : Database → list R
}.

#[global] Instance tasksTable : Table Task := {|
  tableName := "tasks";
  cell t col := lookupCol col
    [ ("id", VText (t_id t)); ("status", VText (t_status t));
      ("priority", VText (t_priority t));
      ("assigned_to", textOf (t_assigned_to t));
      ("created_by", textOf (t_created_by t));
      ("created_at", VTime (t_created_at t));
      ("updated_at", timeOf (t_updated_at t));
      ("due_date", timeOf (t_due_date t));
      ("deadline", timeOf (t_deadline t));
      ("completed_at", timeOf (t_completed_at t));
      ("late_completion", VBool (t_late_completion t)) ];
  rowsOf := tasks
|}.

#[global] Instance issuesTable : Table Issue := {|
  tableName := "issues";
  cell i col := lookupCol col
    [ ("id", VText (i_id i)); ("status", VText (i_status i));
      ("priority", VText (i_priority i));
      ("reported_by", textOf (i_reported_by i));
      ("suggested_assignee_id", textOf (i_suggested_assignee_id i));
      ("assigned_to", textOf (i_assigned_to i));
      ("created_at", timeOf (i_created_at i));
      ("resolved_at", timeOf (i_resolved_at i)) ];
  rowsOf := issues
|}.

#[global] Instance profilesTable : Table Profile := {|
  tableName := "profiles";
  cell p col := lookupCol col
    [ ("id", VText (p_id p)); ("full_name", VText (p_full_name p));
      ("email", VText (p_email p)); ("role", VText (p_role p));
      ("job_description", textOf (p_job_description p));
      ("score", numOf (p_score p));
      ("weekly_hours", numOf (p_weekly_hours p));
      ("avatar_url", textOf (p_avatar_url p)) ];
  rowsOf := profiles
|}.

(** The store as one request meets it, query by query: [failing table
    params] is the error it answers a query on [table] with parameters
    [params] with, if it does not answer it from [rowsIn]. A query can fail
    on its own (a column or a table that does not exist, a time-out) while the
    other queries of the request are answered. *)
Record Backend : Type := mkBackend {
  rowsIn : Database;
  failing : string → list Filter → option string
}.

(** A [Store] is the backend that fails every query alike, or none. *)
Definition whole (st : Store) : Backend :=
  {| rowsIn := db st; failing := λ _ _, outage st |}.

Coercion whole : Store >-> Backend.

(** Awaiting a builder sends its current parameters to the store. *)
Definition execute {R} `{Table R} (st : Backend) (b : Builder) : Result R :=
  match failing st tableName (b_params b) with
  | Some msg => mkResult None None (Some msg)
  | None =>
      let sel := selected cell (b_params b) (rowsOf (rowsIn st)) in
      mkResult (if b_head b then None else Some sel)
               (if b_count b then Some (List.length sel) else None)
               None
  end.

(** ** Handler computations

    A handler runs over the heap of the builders it has created and may
    throw. A variable that holds a builder holds its address, so two uses
    of [tasksQuery] are two uses of the same object. *)

Abbreviation Heap := (list Builder).

Definition M (A : Type) : Type := Heap → (Thrown + A) * Heap.

#[global] Instance M_ret : MRet M := λ A a h, (inr a, h).

#[global] Instance M_bind : MBind M := λ A B f m h,
  match m h with
  | (inr a, h') => f a h'
  | (inl e, h') => (inl e, h')
  end.

Definition throw {A} (e : Thrown) : M A := λ h, (inl e, h).

Definition liftThrown {A} (r : Thrown + A) : M A := λ h, (r, h).

Record Query (R : Type) : Type := mkQuery { addr : nat }.
Arguments mkQuery {R}.
Arguments addr {R}.

(** [supabase.from(table).select(columns, { count, head })] *)
Definition select (R : Type) (exact head : bool) : M (Query R) :=
  λ h, (inr (mkQuery (List.length h)), h ++ [mkBuilder exact head []]).

Definition param {R} (q : Query R) (f : Filter) : M (Query R) :=
  λ h, (inr q, alter (addParam f) (addr q) h).

Definition eq_ {R} (q : Query R) (col : string) (v : Value) : M (Query R) :=
  param q (Where (mkCond col op_eq v)).
Definition neq {R} (q : Query R) (col : string) (v : Value) : M (Query R) :=
  param q (Where (mkCond col op_neq v)).
Definition lt {R} (q : Query R) (col : string) (v : Value) : M (Query R) :=
  param q (Where (mkCond col op_lt v)).
Definition gte {R} (q : Query R) (col : string) (v : Value) : M (Query R) :=
  param q (Where (mkCond col op_gte v)).
Definition lte {R} (q : Query R) (col : string) (v : Value) : M (Query R) :=
  param q (Where (mkCond col op_lte v)).
Definition or_ {R} (q : Query R) (cs : list Cond) : M (Query R) :=
  param q (AnyOf cs).

Definition await {R} `{Table R} (st : Backend) (q : Query R) : M (Result R) :=
  λ h, match h !! addr q with
       | Some b => (inr (execute st b), h)
       | None => (inl NotAnError, h)
       end.

(** ** Requests and responses *)

Record AuthUser : Type := mkUser { id : string; role : string }.

Definition isAdminOf (u : AuthUser) : bool := String.eqb (role u) "admin".

Inductive Response (A : Type) : Type :=
| Ok (payload : A)
| Failed (status : Z) (error : string) (message : string).
Arguments Ok {A}.
Arguments Failed {A}.

(** The [try { ... } catch (error) { res.status(500)... }] around every handler. *)
Definition catch500 {A} (e : Thrown) : Response A :=
  Failed 500 "Internal server error"
    match e with Error m => m | NotAnError => "Unknown error" end.

Definition handle {A} (body : M (Response A)) : Response A :=
  match body [] with
  | (inr r, _) => r
  | (inl e, _) => catch500 e
  end.

(** [x || 0] on a count that may be null. *)
Definition orZero (n : option nat) : nat := default 0%nat n.

(** [rows?.filter(p).length || 0] *)
Definition countIf {R} (rows : option (list R)) (p : R → bool) : nat :=
  match rows with
  | Some l => List.length (List.filter p l)
  | None => 0%nat
  end.

(** [total && total > 0 ? Math.round((completed || 0) / total * 100) : 0] *)
Definition completionRate (total completed : option nat) : Z :=
  match total with
  | Some (S _ as t) =>
      Math_round (inject_Z (Z.of_nat (orZero completed)) / inject_Z (Z.of_nat t) * 100)%Q
  | _ => 0
  end.

(** *** The same rate on binary64 numbers

    [completionRate] takes the quotient and the product as exact rationals.
    The engine computes them on binary64 numbers, rounding after the division
    and after the multiplication, before [Math.round] is applied; the two
    agree except where [completed / total * 100] is exactly half-way between
    two integers, which [completionRate] always rounds up and the engine
    rounds as the binary64 product falls (23 of 40 gives 57.499999999999993). *)

Module Binary64.

(** A count as a JavaScript number. *)
Definition numberOf (n : nat) : PrimFloat.float :=
  PrimFloat.of_uint63 (Uint63.of_Z (Z.of_nat n)).

(** [Math.round] of a finite binary64 number: the floor of its exact value
    plus one half. *)
Definition Math_round (x : PrimFloat.float) : Z :=
  match FloatOps.Prim2SF x with
  | SpecFloat.S754_finite s m e =>
      let v := if s then Z.neg m else Z.pos m in
      if 0 <=? e then v * 2 ^ e
      else (2 * v + 2 ^ (- e)) / (2 * 2 ^ (- e))
  | _ => 0
  end.

(** [total && total > 0 ? Math.round((completed || 0) / total * 100) : 0] *)
Definition completionRate (total completed : option nat) : Z :=
  match total with
  | Some (S _ as t) =>
      Math_round (PrimFloat.mul (PrimFloat.div (numberOf (orZero completed)) (numberOf t))
                                (numberOf 100))
  | _ => 0
  end.

(** What the theorems about the rate state of it, decided for one pair of
    counts on the binary64 rate: it is within one half of the exact percentage,
    between 0 and 100, 0 and 100 exactly where stated, and equal to the exact
    rate unless the percentage is half-way, where it may be one less. *)
Definition agrees (t c : nat) : bool :=
  let r := completionRate (Some t) (Some c) in
  let T := Z.of_nat t in
  let C := Z.of_nat c in
  let exact := if T =? 0 then 0 else (200 * C + T) / (2 * T) in
  (Z.abs (2 * T * r - 200 * C) <=? T)
  && (0 <=? r) && (r <=? 100)
  && Bool.eqb (r =? 0) ((T =? 0) || (200 * C <? T))
  && Bool.eqb (r =? 100) (negb (T =? 0) && (199 * T <=? 200 * C))
  && ((r =? exact) || (((200 * C) mod (2 * T) =? T) && (r =? exact - 1))).

Definition agreesUpTo (n : nat) : bool :=
  forallb (λ t, forallb (agrees t) (seq 0 (S t))) (seq 0 (S n)).

End Binary64.

(** The visibility of a caller who is not an administrator. *)
Definition ownTasks (userId : string) : list Cond :=
  [ mkCond "assigned_to" op_eq (VText userId);
    mkCond "created_by" op_eq (VText userId) ].

Definition ownIssues (userId : string) : list Cond :=
  [ mkCond "reported_by" op_eq (VText userId);
    mkCond "suggested_assignee_id" op_eq (VText userId);
    mkCond "assigned_to" op_eq (VText userId) ].

(** *** GET /dashboard *)

Record PriorityBreakdown : Type := mkPriorityBreakdown {
  low : nat; medium : nat; high : nat; critical : nat
}.

Record StatusBreakdown : Type := mkStatusBreakdown {
  not_started : nat; in_progress : nat; completed : nat; blocked : nat
}.

Record IssueStatusBreakdown : Type := mkIssueStatusBreakdown {
  pending_assignment : nat; assigned : nat; issue_in_progress : nat;
  resolved : nat; closed : nat
}.

Record TaskMetrics : Type := mkTaskMetrics {
  total : nat;
  completedCount : nat;
  inProgress : nat;
  overdue : nat;
  rate : Z;
  byPriority : PriorityBreakdown;
  byStatus : StatusBreakdown
}.

Record IssueMetrics : Type := mkIssueMetrics {
  issuesTotal : nat;
  pending : nat;
  issuesByPriority : PriorityBreakdown;
  issuesByStatus : IssueStatusBreakdown
}.

Record DashboardMetrics : Type := mkDashboardMetrics {
  taskMetrics : TaskMetrics;
  issueMetrics : IssueMetrics
}.

Definition priorityIs (p : string) (t : Task) : bool := String.eqb (t_priority t) p.
Definition statusIs (s : string) (t : Task) : bool := String.eqb (t_status t) s.
Definition issuePriorityIs (p : string) (i : Issue) : bool := String.eqb (i_priority i) p.
Definition issueStatusIs (s : string) (i : Issue) : bool := String.eqb (i_status i) s.

(** The literal types of a recommendation's [type] and [severity]. *)
Module Rec.
Inductive Kind : Type := workload | performance | suggestion.
Inductive Severity : Type := info | warning | critical.
End Rec.

Section Handlers.

Variable st : Backend.
(** The instant every [new Date()] of the request reads. *)
Variable now : Z.

Definition dashboard (user : AuthUser) : Response DashboardMetrics :=
  handle (
    let userId := id user in
    let isAdmin := isAdminOf user in
    tasksQuery ← select Task true false;
    issuesQuery ← select Issue true false;
    tasksQuery ← (if negb isAdmin then or_ tasksQuery (ownTasks userId)
                  else mret tasksQuery);
    issuesQuery ← (if negb isAdmin then or_ issuesQuery (ownIssues userId)
                   else mret issuesQuery);
    r ← await st tasksQuery;
    let totalTasks := count r in
    q ← eq_ tasksQuery "status" (VText "completed");
    r ← await st q;
    let completedTasks := count r in
    q ← eq_ tasksQuery "status" (VText "in_progress");
    r ← await st q;
    let inProgressTasks := count r in
    q ← eq_ issuesQuery "status" (VText "pending_assignment");
    r ← await st q;
    let pendingIssues := count r in
    nowIso ← liftThrown (toISOString (Some now));
    q ← lt tasksQuery "due_date" (VTime nowIso);
    q ← neq q "status" (VText "completed");
    r ← await st q;
    let overdueTasks := count r in
    let completionRate := completionRate totalTasks completedTasks in
    r ← await st tasksQuery;
    let tasksByPriority := data r in
    let priorityBreakdown :=
      {| low := countIf tasksByPriority (priorityIs "low");
         medium := countIf tasksByPriority (priorityIs "medium");
         high := countIf tasksByPriority (priorityIs "high");
         critical := countIf tasksByPriority (priorityIs "critical") |} in
    let statusBreakdown :=
      {| not_started := countIf tasksByPriority (statusIs "not_started");
         in_progress := orZero inProgressTasks;
         completed := orZero completedTasks;
         blocked := countIf tasksByPriority (statusIs "blocked") |} in
    r ← await st issuesQuery;
    let issuesByPriority := data r in
    let issuePriorityBreakdown :=
      {| low := countIf issuesByPriority (issuePriorityIs "low");
         medium := countIf issuesByPriority (issuePriorityIs "medium");
         high := countIf issuesByPriority (issuePriorityIs "high");
         critical := countIf issuesByPriority (issuePriorityIs "critical") |} in
    let issueStatusBreakdown :=
      {| pending_assignment := orZero pendingIssues;
         assigned := countIf issuesByPriority (issueStatusIs "assigned");
         issue_in_progress := countIf issuesByPriority (issueStatusIs "in_progress");
         resolved := countIf issuesByPriority (issueStatusIs "resolved");
         closed := countIf issuesByPriority (issueStatusIs "closed") |} in
    mret (Ok
      {| taskMetrics :=
           {| total := orZero totalTasks;
              completedCount := orZero completedTasks;
              inProgress := orZero inProgressTasks;
              overdue := orZero overdueTasks;
              rate := completionRate;
              byPriority := priorityBreakdown;
              byStatus := statusBreakdown |};
         issueMetrics :=
           {| issuesTotal := from_option (@List.length Issue) 0%nat issuesByPriority;
              pending := orZero pendingIssues;
              issuesByPriority := issuePriorityBreakdown;
              issuesByStatus := issueStatusBreakdown |} |})).

(** *** GET /task-completion-trend *)

Record TrendPoint : Type := mkTrendPoint {
  date : Z;
  created : nat;
  completedThatDay : nat
}.

(** [new Date(t.created_at).toISOString().split('T')[0] === dateStr] *)
Definition createdOn (dateStr : Z) (t : Task) : bool :=
  utcDay (t_created_at t) =? dateStr.

Definition completedOn (dateStr : Z) (t : Task) : bool :=
  match t_updated_at t with
  | Some updated =>
      if negb (String.eqb (t_status t) "completed") then false
      else utcDay updated =? dateStr
  | None => false
  end.

(** The body of [for (let i = 0; i < daysNum; i++)], once per unit of fuel. *)
Fixpoint trendLoop (tasks : option (list Task)) (startDate : Date)
    (i : Z) (fuel : nat) (trendData : list TrendPoint) : M (list TrendPoint) :=
  match fuel with
  | O => mret trendData
  | S fuel' =>
      let date := addDays startDate (Some i) in
      iso ← liftThrown (toISOString date);
      let dateStr := utcDay iso in
      let created := countIf tasks (createdOn dateStr) in
      let completed := countIf tasks (completedOn dateStr) in
      trendLoop tasks startDate (i + 1) fuel'
        (trendData ++ [mkTrendPoint dateStr created completed])
  end.

(** How often the loop condition [i < daysNum] holds from [i = 0]. *)
Definition iterations (daysNum : Num) : nat :=
  match daysNum with
  | Some n => Z.to_nat n
  | None => 0%nat
  end.

(** [days] is the text of [req.query.days]: the value itself when it is a
    string, what [String(value)] gives when the query parser has built an
    array or an object, and [None] when the parameter is absent. *)
Definition taskCompletionTrend (user : AuthUser) (days : option string)
    : Response (list TrendPoint) :=
  handle (
    let days := default "30" days in
    let daysNum := parseInt days in
    let userId := id user in
    let isAdmin := isAdminOf user in
    let endDate : Date := Some now in
    let startDate : Date := Some now in
    let startDate := addDays startDate (Z.opp <$> daysNum) in
    query ← select Task false false;
    startIso ← liftThrown (toISOString startDate);
    query ← gte query "created_at" (VTime startIso);
    endIso ← liftThrown (toISOString endDate);
    query ← lte query "created_at" (VTime endIso);
    query ← (if negb isAdmin then or_ query (ownTasks userId) else mret query);
    r ← await st query;
    let tasks := data r in
    match error r with
    | Some message => mret (Failed 400 "Database error" message)
    | None =>
        trendData ← trendLoop tasks startDate 0 (iterations daysNum) [];
        mret (Ok trendData)
    end).

(** *** GET /user-workload *)

Record UserWorkload : Type := mkUserWorkload {
  userId : string;
  userName : string;
  email : string;
  totalTasks : nat;
  completedTasks : nat;
  inProgressTasks : nat;
  workloadRate : Z
}.

Definition workloadOf (user : Profile) : M UserWorkload :=
  q ← select Task true true;
  q ← eq_ q "assigned_to" (VText (p_id user));
  r ← await st q;
  let totalTasks := count r in
  q ← select Task true true;
  q ← eq_ q "assigned_to" (VText (p_id user));
  q ← eq_ q "status" (VText "completed");
  r ← await st q;
  let completedTasks := count r in
  q ← select Task true true;
  q ← eq_ q "assigned_to" (VText (p_id user));
  q ← eq_ q "status" (VText "in_progress");
  r ← await st q;
  let inProgressTasks := count r in
  mret {| userId := p_id user;
          userName := p_full_name user;
          email := p_email user;
          totalTasks := orZero totalTasks;
          completedTasks := orZero completedTasks;
          inProgressTasks := orZero inProgressTasks;
          workloadRate := completionRate totalTasks completedTasks |}.

Definition userWorkload : Response (list UserWorkload) :=
  handle (
    q ← select Profile false false;
    r ← await st q;
    let users := data r in
    match error r with
    | Some message => mret (Failed 400 "Database error" message)
    | None =>
        workloadData ← mapM workloadOf (default [] users);
        mret (Ok workloadData)
    end).

(** *** GET /issue-resolution-metrics *)

Record ResolutionMetrics : Type := mkResolutionMetrics {
  rm_total : nat;
  rm_resolved : nat;
  rm_pending : nat;
  rm_assigned : nat;
  resolutionRate : Z;
  avgResolutionTimeHours : Z
}.

Definition isResolved (i : Issue) : bool :=
  String.eqb (i_status i) "resolved" || String.eqb (i_status i) "closed".

(** [resolved - created] of an issue that has both instants. *)
Definition resolutionTime (i : Issue) : Z :=
  match i_created_at i, i_resolved_at i with
  | Some c, Some r => r - c
  | _, _ => 0
  end.

Definition issueResolutionMetrics (user : AuthUser) : Response ResolutionMetrics :=
  handle (
    let userId := id user in
    let isAdmin := isAdminOf user in
    query ← select Issue false false;
    query ← (if negb isAdmin then or_ query (ownIssues userId) else mret query);
    r ← await st query;
    let issues := data r in
    match error r with
    | Some message => mret (Failed 400 "Database error" message)
    | None =>
        let totalIssues := from_option (@List.length Issue) 0%nat issues in
        let resolvedIssues := countIf issues isResolved in
        let pendingIssues := countIf issues (issueStatusIs "pending_assignment") in
        let assignedIssues :=
          countIf issues (λ i, String.eqb (i_status i) "assigned"
                               || String.eqb (i_status i) "in_progress") in
        let resolvedWithTimes :=
          List.filter (λ i, isResolved i && bool_decide (is_Some (i_resolved_at i))
                                         && bool_decide (is_Some (i_created_at i)))
                      (default [] issues) in
        let avgResolutionTimeHours :=
          if (0 <? List.length resolvedWithTimes)%nat then
            let totalResolutionTime :=
              fold_left (λ sum issue, sum + resolutionTime issue) resolvedWithTimes 0 in
            Math_round (inject_Z totalResolutionTime
                        / inject_Z (Z.of_nat (List.length resolvedWithTimes))
                        / inject_Z (1000 * 60 * 60))%Q
          else 0 in
        mret (Ok {| rm_total := totalIssues;
                    rm_resolved := resolvedIssues;
                    rm_pending := pendingIssues;
                    rm_assigned := assignedIssues;
                    resolutionRate :=
                      if (0 <? totalIssues)%nat then
                        Math_round (inject_Z (Z.of_nat resolvedIssues)
                                    / inject_Z (Z.of_nat totalIssues) * 100)%Q
                      else 0;
                    avgResolutionTimeHours := avgResolutionTimeHours |})
    end).

(** *** GET /employees-summary *)

Record EmployeeSummary : Type := mkEmployeeSummary {
  employee : Profile;
  es_activeTasks : nat;
  completedThisWeek : nat;
  lateTasks : nat;
  es_overdueTasks : nat
}.

Definition summaryOf (user : Profile) : M EmployeeSummary :=
  q ← select Task true true;
  q ← eq_ q "assigned_to" (VText (p_id user));
  q ← neq q "status" (VText "completed");
  r ← await st q;
  let activeTasks := count r in
  let weekStart : Date := Some now in
  let weekStart := addDays weekStart (Some (- getDay now)) in
  q ← select Task true true;
  q ← eq_ q "assigned_to" (VText (p_id user));
  q ← eq_ q "status" (VText "completed");
  weekStartIso ← liftThrown (toISOString weekStart);
  q ← gte q "completed_at" (VTime weekStartIso);
  r ← await st q;
  let completedThisWeek := count r in
  q ← select Task true true;
  q ← eq_ q "assigned_to" (VText (p_id user));
  q ← eq_ q "late_completion" (VBool true);
  r ← await st q;
  let lateTasks := count r in
  nowIso ← liftThrown (toISOString (Some now));
  q ← select Task true true;
  q ← eq_ q "assigned_to" (VText (p_id user));
  q ← lt q "deadline" (VTime nowIso);
  q ← neq q "status" (VText "completed");
  r ← await st q;
  let overdueTasks := count r in
  mret {| employee := user;
          es_activeTasks := orZero activeTasks;
          completedThisWeek := orZero completedThisWeek;
          lateTasks := orZero lateTasks;
          es_overdueTasks := orZero overdueTasks |}.

Definition employeesSummary : Response (list EmployeeSummary) :=
  handle (
    q ← select Profile false false;
    r ← await st q;
    let users := data r in
    match error r with
    | Some message => mret (Failed 400 "Database error" message)
    | None =>
        employeeSummary ← mapM summaryOf (default [] users);
        mret (Ok employeeSummary)
    end).

(** *** GET /recommendations *)

Record Recommendation : Type := mkRecommendation {
  type : Rec.Kind;
  severity : Rec.Severity;
  title : string;
  description : string;
  affectedUsers : list string
}.

(** A profile together with the two counts added to it by [{ ...user, activeTasks, overdueTasks }]. *)
Record Workload : Type := mkWorkload {
  profile : Profile;
  activeTasks : nat;
  overdueTasks : nat
}.

Definition full_name (u : Workload) : string := p_full_name (profile u).
Definition score (u : Workload) : option Z := p_score (profile u).

Definition analyse (user : Profile) : M Workload :=
  q ← select Task true true;
  q ← eq_ q "assigned_to" (VText (p_id user));
  q ← neq q "status" (VText "completed");
  r ← await st q;
  let activeTasks := count r in
  nowIso ← liftThrown (toISOString (Some now));
  q ← select Task true true;
  q ← eq_ q "assigned_to" (VText (p_id user));
  q ← lt q "deadline" (VTime nowIso);
  q ← neq q "status" (VText "completed");
  r ← await st q;
  let overdueTasks := count r in
  mret {| profile := user;
          activeTasks := orZero activeTasks;
          overdueTasks := orZero overdueTasks |}.

End Handlers.

(** [score || 100]: null and 0 are both falsy. *)
Definition scoreOr100 (s : option Z) : Z :=
  match s with
  | Some 0 | None => 100
  | Some n => n
  end.

Definition isOverloaded (u : Workload) : bool := (10 <? activeTasks u)%nat.
Definition isUnderutilized (u : Workload) : bool := (activeTasks u <? 2)%nat.
Definition hasOverdue (u : Workload) : bool := (0 <? overdueTasks u)%nat.
Definition hasLowScore (u : Workload) : bool := scoreOr100 (score u) <? 70.

Definition cat (a b : string) : string := String.append a b.

(** The object literals pushed by the four rules. *)
Definition overloadedEntry (overloadedUsers : list Workload) : Recommendation :=
  {| type := Rec.workload;
     severity := Rec.warning;
     title := "Aşırı İş Yükü Tespit Edildi";
     description :=
       cat (pretty (List.length overloadedUsers))
           " çalışanın 10'dan fazla aktif görevi var. İş dağılımını dengelemeyi düşünün.";
     affectedUsers := List.map full_name overloadedUsers |}.

Definition underutilizedEntry (underutilizedUsers : list Workload) : Recommendation :=
  {| type := Rec.workload;
     severity := Rec.info;
     title := "Düşük İş Yükü";
     description :=
       cat (pretty (List.length underutilizedUsers))
           " çalışanın 2'den az aktif görevi var. Bu kişilere yeni görevler atanabilir.";
     affectedUsers := List.map full_name underutilizedUsers |}.

Definition overdueEntry (usersWithOverdue : list Workload) : Recommendation :=
  {| type := Rec.performance;
     severity := Rec.critical;
     title := "Geciken Görevler";
     description :=
       cat (pretty (List.length usersWithOverdue))
           " çalışanın geciken görevleri var. Acil müdahale gerekebilir.";
     affectedUsers :=
       List.map (λ u, cat (full_name u)
                        (cat " (" (cat (pretty (overdueTasks u)) " geciken)")))
                usersWithOverdue |}.

Definition lowScoreEntry (lowScoreUsers : list Workload) : Recommendation :=
  {| type := Rec.performance;
     severity := Rec.warning;
     title := "Düşük Performans Puanı";
     description :=
       cat (pretty (List.length lowScoreUsers))
           " çalışanın performans puanı 70'in altında.";
     affectedUsers := List.map full_name lowScoreUsers |}.

(** The four rules, each pushing at most one entry onto [recommendations]. *)
Definition recommend (workloadData : list Workload) : list Recommendation :=
  let recommendations : list Recommendation := [] in
  let overloadedUsers := List.filter isOverloaded workloadData in
  let recommendations :=
    if (0 <? List.length overloadedUsers)%nat
    then recommendations ++ [overloadedEntry overloadedUsers]
    else recommendations in
  let underutilizedUsers := List.filter isUnderutilized workloadData in
  let recommendations :=
    if (0 <? List.length underutilizedUsers)%nat
    then recommendations ++ [underutilizedEntry underutilizedUsers]
    else recommendations in
  let usersWithOverdue := List.filter hasOverdue workloadData in
  let recommendations :=
    if (0 <? List.length usersWithOverdue)%nat
    then recommendations ++ [overdueEntry usersWithOverdue]
    else recommendations in
  let lowScoreUsers := List.filter hasLowScore workloadData in
  let recommendations :=
    if (0 <? List.length lowScoreUsers)%nat
    then recommendations ++ [lowScoreEntry lowScoreUsers]
    else recommendations in
  recommendations.

Definition recommendations (st : Backend) (now : Z) : Response (list Recommendation) :=
  handle (
    q ← select Profile false false;
    r ← await st q;
    let users := data r in
    workloadData ← mapM (analyse st now) (default [] users);
    mret (Ok (recommend workloadData))).

(** ** The response cache

    The three cached routes pass through [cacheMiddleware(ttl)], whose
    module (middleware/cache.js) is not among the sources read here. *)

Module Cache.

(** Modelled from the spec: the caller's effective scope, "admin vs the
    specific non-admin caller's id" (middleware/cache.js is missing). *)
Inductive Scope : Type :=
| AdminScope
| UserScope (callerId : string).

#[global] Instance Scope_eq_dec : EqDecision Scope.
Proof. solve_decision. Defined.

#[global] Instance Scope_countable : Countable Scope :=
  inj_countable'
    (λ s, match s with AdminScope => None | UserScope i => Some i end)
    (λ o, match o with None => AdminScope | Some i => UserScope i end)
    (λ s, match s with AdminScope => eq_refl | UserScope _ => eq_refl end).

Definition effectiveScope (u : AuthUser) : Scope :=
  if isAdminOf u then AdminScope else UserScope (id u).

(** Modelled from the spec: the key "MUST incorporate the logical route,
    the caller's effective scope, and any query parameters affecting the
    result" (middleware/cache.js is missing). *)
Definition Key : Type := string * Scope * list (string * string).

Record Request : Type := mkRequest {
  route : string;
  caller : AuthUser;
  query : list (string * string)
}.

Definition keyOf (req : Request) : Key :=
  (route req, effectiveScope (caller req), query req).

(** Modelled from the spec: a CacheEntry holds the payload, its creation
    instant and its time to live (middleware/cache.js is missing). *)
Record Entry (P : Type) : Type := mkEntry {
  payload : P;
  created_at : Z;
  ttl : Z
}.
Arguments mkEntry {P}.
Arguments payload {P}.
Arguments created_at {P}.
Arguments ttl {P}.

(** Modelled from the spec: [get(key) -> payload | absent]; "an entry is
    valid iff now < created_at + ttl; invalid entries are treated as
    absent" (middleware/cache.js is missing). *)
Definition get {P} (now : Z) (k : Key) (c : gmap Key (Entry P)) : option P :=
  match c !! k with
  | Some e => if now <? created_at e + ttl e then Some (payload e) else None
  | None => None
  end.

(** Modelled from the spec: [put(key, payload, ttl)]
    (middleware/cache.js is missing). *)
Definition put {P} (now : Z) (k : Key) (p : P) (life : Z)
    (c : gmap Key (Entry P)) : gmap Key (Entry P) :=
  <[k := mkEntry p now life]> c.

(** Modelled from the spec: "on hit, return stored payload; on miss,
    invoke the relevant Metric Computer, store the result with a TTL,
    return it"; "no error state is persisted to the cache"
    (middleware/cache.js is missing). [compute] is the handler behind the
    middleware. *)
Definition cacheMiddleware {P} (life : Z) (compute : Request → Z → Response P)
    (req : Request) (now : Z) (c : gmap Key (Entry P))
    : Response P * gmap Key (Entry P) :=
  match get now (keyOf req) c with
  | Some p => (Ok p, c)
  | None =>
      match compute req now with
      | Ok p => (Ok p, put now (keyOf req) p life c)
      | Failed s e m => (Failed s e m, c)
      end
  end.

(** The caches a server can hold: the empty one, and the ones left by
    serving one more request through a middleware of any time to live. *)
Inductive reachable {P} (compute : Request → Z → Response P)
    : gmap Key (Entry P) → Prop :=
| reach_empty : reachable compute ∅
| reach_serve c life req now :
    reachable compute c →
    reachable compute (cacheMiddleware life compute req now c).2.

End Cache.

(** ** Views used in the statements *)

(** The search parameters that narrow a query to what the caller may see. *)
Definition taskScope (user : AuthUser) : list Filter :=
  if isAdminOf user then [] else [AnyOf (ownTasks (id user))].

Definition issueScope (user : AuthUser) : list Filter :=
  if isAdminOf user then [] else [AnyOf (ownIssues (id user))].

Definition statusEq (s : string) : Filter := Where (mkCond "status" op_eq (VText s)).
Definition statusNeq (s : string) : Filter := Where (mkCond "status" op_neq (VText s)).
Definition before (col : string) (t : Z) : Filter := Where (mkCond col op_lt (VTime t)).
Definition notBefore (col : string) (t : Z) : Filter := Where (mkCond col op_gte (VTime t)).
Definition notAfter (col : string) (t : Z) : Filter := Where (mkCond col op_lte (VTime t)).
Definition assignedTo (userId : string) : Filter :=
  Where (mkCond "assigned_to" op_eq (VText userId)).

(** The parameters [tasksQuery] of [GET /dashboard] has gathered when it is
    awaited for its rows. *)
Definition staleParams (now : Z) : list Filter :=
  [statusEq "completed"; statusEq "in_progress"; before "due_date" now;
   statusNeq "completed"].

(** The rows of a table that satisfy all of [params]. *)
Definition rowsWhere {R} `{Table R} (d : Database) (params : list Filter) : list R :=
  selected cell params (rowsOf d).

(** The tasks of the store the caller may see. *)
Definition visibleTasks (d : Database) (user : AuthUser) : list Task :=
  rowsWhere d (taskScope user).

(** A task created between two instants, both included. *)
Definition inWindow (start finish : Z) (t : Task) : bool :=
  (start <=? t_created_at t) && (t_created_at t <=? finish).

(** The bucket of the [i]-th day from [start], counted over [tasks]. *)
Definition bucketOf (tasks : list Task) (start : Z) (i : nat) : TrendPoint :=
  let day := utcDay start + Z.of_nat i in
  mkTrendPoint day (List.length (List.filter (createdOn day) tasks))
                   (List.length (List.filter (completedOn day) tasks)).

(** The count a freshly built [head] query over the tasks resolves to,
    [null] read as 0. *)
Definition countWhere (st : Store) (params : list Filter) : nat :=
  orZero (count (execute (R:=Task) st (mkBuilder true true params))).

(** The entry of [workloadData] for one profile. *)
Definition snapshot (st : Store) (now : Z) (user : Profile) : Workload :=
  {| profile := user;
     activeTasks := countWhere st [assignedTo (p_id user); statusNeq "completed"];
     overdueTasks := countWhere st [assignedTo (p_id user); before "deadline" now;
                                    statusNeq "completed"] |}.

(** The profiles a handler maps over: none when the store fails. *)
Definition usersOf (st : Store) : list Profile :=
  match outage st with
  | None => profiles (db st)
  | Some _ => []
  end.

Definition listed (r : Recommendation) : bool :=
  match affectedUsers r with
  | [] => false
  | _ :: _ => true
  end.

(** As the spec words it: the start of the current calendar week, 00:00 UTC
    of the most recent Sunday. *)
Definition weekStart_spec (now : Z) : Z := (utcDay now - getDay now) * msPerDay.

(** As the spec words it: the tasks assigned to the profile, completed, whose
    [completed_at] is on or after the start of the current calendar week. *)
Definition completedThisWeek_spec (d : Database) (now : Z) (p : Profile) : nat :=
  List.length
    (List.filter
       (λ t, bool_decide (t_assigned_to t = Some (p_id p))
             && String.eqb (t_status t) "completed"
             && match t_completed_at t with
                | Some c => weekStart_spec now <=? c
                | None => false
                end)
       (tasks d)).

(** Two callers whose effective scopes differ: two callers who are not
    administrators and have different ids, or an administrator and a caller
    who is not one. *)
Definition differentlyScoped (a b : AuthUser) : Prop :=
  (isAdminOf a = false ∧ isAdminOf b = false ∧ id a ≠ id b)
  ∨ isAdminOf a ≠ isAdminOf b.

(** Every entry of the cache holds a payload the handler computed for a
    request with the key of the entry. *)
Definition ownPayloads {P} (compute : Cache.Request → Z → Response P)
    (c : gmap Cache.Key (Cache.Entry P)) : Prop :=
  ∀ k e, c !! k = Some e →
         ∃ req t, Cache.keyOf req = k ∧ compute req t = Ok (Cache.payload e).

(** A handler that answers with the id of the caller it computed for. *)
Definition whoAsked (req : Cache.Request) (now : Z) : Response string :=
  Ok (id (Cache.caller req)).

(** What [GET /dashboard] answers when no count and no row reaches it. *)
Definition emptyDashboard : DashboardMetrics :=
  {| taskMetrics :=
       {| total := 0; completedCount := 0; inProgress := 0; overdue := 0; rate := 0;
          byPriority := mkPriorityBreakdown 0 0 0 0;
          byStatus := mkStatusBreakdown 0 0 0 0 |};
     issueMetrics :=
       {| issuesTotal := 0; pending := 0;
          issuesByPriority := mkPriorityBreakdown 0 0 0 0;
          issuesByStatus := mkIssueStatusBreakdown 0 0 0 0 0 |} |}.

Definition priorityLe (a b : PriorityBreakdown) : Prop :=
  (low a ≤ low b ∧ medium a ≤ medium b ∧ high a ≤ high b ∧ critical a ≤ critical b)%nat.

(** Every count of [a] is at most the same count of [b]. *)
Definition countsLe (a b : DashboardMetrics) : Prop :=
  let ta := taskMetrics a in let tb := taskMetrics b in
  let ia := issueMetrics a in let ib := issueMetrics b in
  (total ta ≤ total tb ∧ completedCount ta ≤ completedCount tb
   ∧ inProgress ta ≤ inProgress tb ∧ overdue ta ≤ overdue tb
   ∧ priorityLe (byPriority ta) (byPriority tb)
   ∧ not_started (byStatus ta) ≤ not_started (byStatus tb)
   ∧ in_progress (byStatus ta) ≤ in_progress (byStatus tb)
   ∧ completed (byStatus ta) ≤ completed (byStatus tb)
   ∧ blocked (byStatus ta) ≤ blocked (byStatus tb)
   ∧ issuesTotal ia ≤ issuesTotal ib ∧ pending ia ≤ pending ib
   ∧ priorityLe (issuesByPriority ia) (issuesByPriority ib)
   ∧ pending_assignment (issuesByStatus ia) ≤ pending_assignment (issuesByStatus ib)
   ∧ assigned (issuesByStatus ia) ≤ assigned (issuesByStatus ib)
   ∧ issue_in_progress (issuesByStatus ia) ≤ issue_in_progress (issuesByStatus ib)
   ∧ resolved (issuesByStatus ia) ≤ resolved (issuesByStatus ib)
   ∧ closed (issuesByStatus ia) ≤ closed (issuesByStatus ib))%nat.

(** ** Sample callers and stores *)

Definition boss : AuthUser := mkUser "admin-1" "admin".
Definition ann : AuthUser := mkUser "u-ann" "member".
Definition bob : AuthUser := mkUser "u-bob" "member".

Definition taskOf (status assignee : string) (created : Z)
    (updated completedAt : option Z) : Task :=
  mkTask "task" status "medium" (Some assignee) (Some "admin-1")
         created updated None None completedAt false.

Definition storeOf (ts : list Task) (ps : list Profile) : Store :=
  mkStore (mkDatabase ts [] ps) None.

(** One task, in progress. *)
Definition oneOpenTask : Store :=
  storeOf [taskOf "in_progress" "u-ann" 0 None None] [].

Definition hour : Z := 3600000.

(** Noon of the twelfth day after the epoch. *)
Definition noon12 : Z := 12 * msPerDay + 12 * hour.

(** A task created on day 10 at 06:00, and a task created on day 1 and
    completed on day 11 at 10:00. *)
Definition trendStore : Store :=
  storeOf
    [ taskOf "in_progress" "u-ann" (10 * msPerDay + 6 * hour) None None;
      taskOf "completed" "u-ann" (1 * msPerDay)
             (Some (11 * msPerDay + 10 * hour)) (Some (11 * msPerDay + 10 * hour)) ]
    [].

Definition profileOf (ident name : string) (points : option Z) : Profile :=
  mkProfile ident name "someone@example.org" "member" None points None None.

(** Day 10 after the epoch is a Sunday and day 12 a Tuesday. The one task
    was completed on that Sunday at 06:00. *)
Definition weekStore : Store :=
  storeOf
    [ taskOf "completed" "u-ann" (9 * msPerDay)
             (Some (10 * msPerDay + 6 * hour)) (Some (10 * msPerDay + 6 * hour)) ]
    [ profileOf "u-ann" "Ann" (Some 100) ].

(** A profile with fifteen open tasks and a score of 50, and a profile whose
    score is 0. *)
Definition busyLowScore : Workload :=
  mkWorkload (profileOf "u-ann" "Ann" (Some 50)) 15 0.
Definition zeroScore : Workload :=
  mkWorkload (profileOf "u-bob" "Bob" (Some 0)) 3 0.

(** Forty tasks, twenty-three of them completed: 57.5 percent. *)
Definition halfwayStore : Store :=
  storeOf (List.repeat (taskOf "completed" "u-ann" 0 None (Some hour)) 23
           ++ List.repeat (taskOf "in_progress" "u-ann" 0 None None) 17)
          [].

(** The store these two snapshots are taken from: fifteen open tasks of Ann,
    whose score is 50, and three of Bob, whose score is 0. *)
Definition busyStore : Store :=
  storeOf (List.repeat (taskOf "in_progress" "u-ann" (10 * msPerDay) None None) 15
           ++ List.repeat (taskOf "pending" "u-bob" (10 * msPerDay) None None) 3)
          [ profileOf "u-ann" "Ann" (Some 50); profileOf "u-bob" "Bob" (Some 0) ].

(** ** Views of the per-profile handlers *)

(** The row of [GET /user-workload] for one profile. *)
Definition workloadRow (st : Store) (user : Profile) : UserWorkload :=
  let countOf params := count (execute (R:=Task) st (mkBuilder true true params)) in
  let totalTasks := countOf [assignedTo (p_id user)] in
  let completedTasks := countOf [assignedTo (p_id user); statusEq "completed"] in
  let inProgressTasks := countOf [assignedTo (p_id user); statusEq "in_progress"] in
  {| userId := p_id user;
     userName := p_full_name user;
     email := p_email user;
     totalTasks := orZero totalTasks;
     completedTasks := orZero completedTasks;
     inProgressTasks := orZero inProgressTasks;
     workloadRate := completionRate totalTasks completedTasks |}.

(** The row of [GET /employees-summary] for one profile. *)
Definition summaryRow (st : Store) (now : Z) (user : Profile) : EmployeeSummary :=
  {| employee := user;
     es_activeTasks :=
       countWhere st [assignedTo (p_id user); statusNeq "completed"];
     completedThisWeek :=
       countWhere st [assignedTo (p_id user); statusEq "completed";
                      notBefore "completed_at" (now - getDay now * msPerDay)];
     lateTasks :=
       countWhere st [assignedTo (p_id user);
                      Where (mkCond "late_completion" op_eq (VBool true))];
     es_overdueTasks :=
       countWhere st [assignedTo (p_id user); before "deadline" now;
                      statusNeq "completed"] |}.

(** The issues of the store the caller may see. *)
Definition visibleIssues (d : Database) (user : AuthUser) : list Issue :=
  rowsWhere d (issueScope user).

(** Every issue that has both instants was resolved no earlier than it was
    created. *)
Definition resolvedAfterCreated (d : Database) : Prop :=
  ∀ i c r, In i (issues d) → i_created_at i = Some c → i_resolved_at i = Some r →
           c ≤ r.

Definition issueOf (status reporter : string) (createdAt resolvedAt : option Z) : Issue :=
  mkIssue "issue" status "high" (Some reporter) None None createdAt resolvedAt.

(** Two issues: one resolved after five hours, one pending. *)
Definition issueStore : Store :=
  mkStore (mkDatabase []
             [ issueOf "resolved" "u-ann" (Some 0) (Some (5 * hour));
               issueOf "pending_assignment" "u-bob" (Some hour) None ]
             [])
          None.

(** Midnight at the start of the twelfth day after the epoch. *)
Definition midnight12 : Z := 12 * msPerDay.

(** A task the caller is assigned to or has created. *)
Definition ownsTask (userId : string) (t : Task) : bool :=
  bool_decide (t_assigned_to t = Some userId)
  || bool_decide (t_created_by t = Some userId).

(** An issue the caller has reported, is suggested for, or is assigned to. *)
Definition involvedIn (userId : string) (i : Issue) : bool :=
  bool_decide (i_reported_by i = Some userId)
  || bool_decide (i_suggested_assignee_id i = Some userId)
  || bool_decide (i_assigned_to i = Some userId).

(** Every issue of the store has one of the five statuses the handlers name. *)
Definition knownIssueStatuses (d : Database) : Prop :=
  ∀ i, In i (issues d) →
       In (i_status i)
          ["pending_assignment"; "assigned"; "in_progress"; "resolved"; "closed"].

(** A profile whose stored score is present, not 0, and below 70. *)
Definition storedLowScore (p : Profile) : bool :=
  match p_score p with
  | Some n => negb (n =? 0) && (n <? 70)
  | None => false
  end.

(** ** Backends some of whose queries fail *)

(** The row of [GET /user-workload] for a profile all of whose counts read
    as 0. *)
Definition idleRow (user : Profile) : UserWorkload :=
  {| userId := p_id user;
     userName := p_full_name user;
     email := p_email user;
     totalTasks := 0;
     completedTasks := 0;
     inProgressTasks := 0;
     workloadRate := 0 |}.

(** The row of [GET /employees-summary] for a profile all of whose counts
    read as 0. *)
Definition idleSummary (user : Profile) : EmployeeSummary :=
  {| employee := user;
     es_activeTasks := 0;
     completedThisWeek := 0;
     lateTasks := 0;
     es_overdueTasks := 0 |}.

(** A backend every query on whose [tasks] table fails with [msg], the other
    tables answering. *)
Definition tasksFailing (d : Database) (msg : string) : Backend :=
  {| rowsIn := d;
     failing := λ table _, if String.eqb table "tasks" then Some msg else None |}.

(** * Properties *)

Example parseInt_30 : parseInt "30" = Some 30.
Proof. reflexivity. Qed.
Example parseInt_prefix : parseInt "  -7days" = Some (-7).
Proof. reflexivity. Qed.
Example parseInt_nan : parseInt "abc" = None.
Proof. reflexivity. Qed.
Example parseInt_empty : parseInt "" = None.
Proof. reflexivity. Qed.
Example parseInt_nbsp :
  parseInt (String (ascii_of_nat 194) (String (ascii_of_nat 160) "2")) = Some 2.
Proof. reflexivity. Qed.
Example parseInt_bom_tab :
  parseInt (String (ascii_of_nat 239) (String (ascii_of_nat 187)
             (String (ascii_of_nat 191) (String (ascii_of_nat 9) "-14x")))) = Some (-14).
Proof. reflexivity. Qed.
Example Math_round_half : Math_round (1 # 2) = 1.
Proof. reflexivity. Qed.
Example Math_round_neg_half : Math_round (- (1 # 2)) = 0.
Proof. reflexivity. Qed.
Example getDay_epoch : getDay 0 = 4.
Proof. reflexivity. Qed.

(** Runs a handler whose heap of builders is concrete. *)
Ltac run_handler :=
  cbv [handle mbind mret M_bind M_ret select param eq_ neq lt lte gte or_ await
       liftThrown throw addr toISOString];
  cbn [List.length app lookup list_lookup alter list_alter addParam
       b_params b_count b_head negb execute whole failing rowsIn outage db
       data count error
       orZero default from_option countIf Datatypes.id].

(** ** Selecting rows *)

Section Selected.

Context {R : Type} (cell : R → string → Value).

Lemma selected_app ps qs (rows : list R) :
  selected cell (ps ++ qs) rows = selected cell qs (selected cell ps rows).
Proof.
  unfold selected. induction rows as [|r rows IH]; [reflexivity|].
  cbn [List.filter]. rewrite forallb_app.
  destruct (forallb (filterHolds cell r) ps); cbn [andb List.filter].
  - rewrite IH. reflexivity.
  - exact IH.
Qed.

Lemma filter_length_le (p : R → bool) (l : list R) :
  (List.length (List.filter p l) ≤ List.length l)%nat.
Proof.
  induction l as [|r l IH]; cbn; [lia|]. destruct (p r); cbn; lia.
Qed.

Lemma filter_all (l : list R) : List.filter (λ _, true) l = l.
Proof. induction l as [|r l IH]; cbn; [|rewrite IH]; reflexivity. Qed.

Lemma selected_app_le ps qs (rows : list R) :
  (List.length (selected cell (ps ++ qs) rows)
   ≤ List.length (selected cell ps rows))%nat.
Proof. rewrite selected_app. apply filter_length_le. Qed.

(** One more parameter selects a sublist, whatever is counted in it. *)
Lemma selected_narrows (f : Filter) ps (p : R → bool) (rows : list R) :
  (List.length (List.filter p (selected cell (f :: ps) rows))
   ≤ List.length (List.filter p (selected cell ps rows)))%nat.
Proof.
  unfold selected. induction rows as [|r rows IH]; cbn [List.filter forallb]; [lia|].
  destruct (filterHolds cell r f), (forallb (filterHolds cell r) ps);
    cbn [andb List.filter]; try exact IH.
  - destruct (p r); cbn [List.length]; [apply le_n_S|]; exact IH.
  - destruct (p r); cbn [List.length]; [apply le_S|]; exact IH.
Qed.

Lemma selected_narrows_length (f : Filter) ps (rows : list R) :
  (List.length (selected cell (f :: ps) rows)
   ≤ List.length (selected cell ps rows))%nat.
Proof.
  pose proof (selected_narrows f ps (λ _, true) rows) as H.
  rewrite !filter_all in H. exact H.
Qed.

Lemma selected_nil (rows : list R) : selected cell [] rows = rows.
Proof. apply filter_all. Qed.

Lemma selected_none ps (rows : list R) :
  (∀ r, forallb (filterHolds cell r) ps = false) → selected cell ps rows = [].
Proof.
  intros H. unfold selected. induction rows as [|r rows IH]; [reflexivity|].
  cbn [List.filter]. rewrite H. exact IH.
Qed.

End Selected.

Lemma string_compare_refl (s : string) : String.compare s s = Eq.
Proof.
  pose proof (String.compare_antisym s s) as H.
  destruct (String.compare s s); [reflexivity | discriminate H | discriminate H].
Qed.

Lemma task_statusEq (t : Task) (s : string) :
  filterHolds cell t (statusEq s) = String.eqb (t_status t) s.
Proof.
  cbn. destruct (String.eqb_spec (t_status t) s) as [->|Hne].
  - rewrite string_compare_refl. reflexivity.
  - destruct (String.compare (t_status t) s) eqn:E; try reflexivity.
    apply String.compare_eq_iff in E. contradiction.
Qed.

(** No task is both completed and in progress. *)
Lemma completed_and_in_progress ps qs (d : Database) :
  rowsWhere (R:=Task) d
    (ps ++ statusEq "completed" :: statusEq "in_progress" :: qs) = [].
Proof.
  unfold rowsWhere. rewrite selected_app.
  apply selected_none. intros t. cbn [forallb].
  rewrite !task_statusEq.
  destruct (String.eqb_spec (t_status t) "completed") as [->|]; reflexivity.
Qed.

(** ** GET /dashboard *)

Lemma dashboard_up d now user :
  let T := taskScope user in
  let J := issueScope user ++ [statusEq "pending_assignment"] in
  let done := List.length (rowsWhere (R:=Task) d (T ++ [statusEq "completed"])) in
  let doing := List.length
      (rowsWhere (R:=Task) d (T ++ [statusEq "completed"; statusEq "in_progress"])) in
  let rows := rowsWhere (R:=Task) d (T ++ staleParams now) in
  let irows := rowsWhere (R:=Issue) d J in
  let countOf {R} (p : R → bool) (l : list R) := List.length (List.filter p l) in
  dashboard (mkStore d None) now user =
  Ok {| taskMetrics :=
          {| total := List.length (rowsWhere (R:=Task) d T);
             completedCount := done;
             inProgress := doing;
             overdue := List.length rows;
             rate := completionRate (Some (List.length (rowsWhere (R:=Task) d T)))
                                    (Some done);
             byPriority :=
               {| low := countOf (priorityIs "low") rows;
                  medium := countOf (priorityIs "medium") rows;
                  high := countOf (priorityIs "high") rows;
                  critical := countOf (priorityIs "critical") rows |};
             byStatus :=
               {| not_started := countOf (statusIs "not_started") rows;
                  in_progress := doing;
                  completed := done;
                  blocked := countOf (statusIs "blocked") rows |} |};
        issueMetrics :=
          {| issuesTotal := List.length irows;
             pending := List.length irows;
             issuesByPriority :=
               {| low := countOf (issuePriorityIs "low") irows;
                  medium := countOf (issuePriorityIs "medium") irows;
                  high := countOf (issuePriorityIs "high") irows;
                  critical := countOf (issuePriorityIs "critical") irows |};
             issuesByStatus :=
               {| pending_assignment := List.length irows;
                  assigned := countOf (issueStatusIs "assigned") irows;
                  issue_in_progress := countOf (issueStatusIs "in_progress") irows;
                  resolved := countOf (issueStatusIs "resolved") irows;
                  closed := countOf (issueStatusIs "closed") irows |} |} |}.
Proof.
  unfold dashboard, taskScope, issueScope, staleParams.
  destruct (isAdminOf user); run_handler; reflexivity.
Qed.

(** When the store fails, the handler reads [null] counts and rows and answers with zeros. *)
Lemma dashboard_down d msg now user :
  dashboard (mkStore d (Some msg)) now user = Ok emptyDashboard.
Proof.
  unfold dashboard. destruct (isAdminOf user); run_handler; reflexivity.
Qed.

(** On every store the three status buckets that are read off the re-awaited
    [tasksQuery] are empty, and the fourth is the completed count. *)
Lemma dashboard_byStatus (st : Store) now user :
  ∃ m, dashboard st now user = Ok m
       ∧ not_started (byStatus (taskMetrics m)) = 0%nat
       ∧ in_progress (byStatus (taskMetrics m)) = 0%nat
       ∧ blocked (byStatus (taskMetrics m)) = 0%nat
       ∧ completed (byStatus (taskMetrics m)) = completedCount (taskMetrics m).
Proof.
  destruct st as [d [msg|]].
  - rewrite dashboard_down. eexists; split; [reflexivity|]. cbn. auto.
  - rewrite dashboard_up. eexists; split; [reflexivity|].
    cbn [taskMetrics byStatus not_started in_progress blocked completed completedCount].
    unfold staleParams.
    rewrite !completed_and_in_progress. cbn. auto.
Qed.

(** C1, at the failing input: one task in progress, seen by an administrator.
    The handler reports one task in total and no task in any status bucket. *)
Theorem dashboard_byStatus_drops_open_task (now : Z) :
  ∃ m, dashboard oneOpenTask now boss = Ok m
       ∧ total (taskMetrics m) = 1%nat
       ∧ (not_started (byStatus (taskMetrics m)) + in_progress (byStatus (taskMetrics m))
          + completed (byStatus (taskMetrics m)) + blocked (byStatus (taskMetrics m)) = 0)%nat.
Proof.
  eexists. split; [vm_compute; reflexivity|]. split; reflexivity.
Qed.

(** ** The completion rate *)

Lemma Math_round_ratio (c t : Z) :
  0 < t → Math_round (inject_Z c / inject_Z t * 100)%Q = (200 * c + t) / (2 * t).
Proof.
  intros Ht. destruct t as [|p|p]; try lia.
  unfold Math_round.
  assert (E : (inject_Z c / inject_Z (Z.pos p) * 100 + (1 # 2) ==
               (200 * c + Z.pos p) # (2 * p))%Q).
  { unfold Qeq, Qdiv, Qmult, Qplus, Qinv, inject_Z. cbn. lia. }
  rewrite E. reflexivity.
Qed.

Lemma completionRate_ratio (t c : nat) :
  completionRate (Some t) (Some c) =
  if (t =? 0)%nat then 0 else (200 * Z.of_nat c + Z.of_nat t) / (2 * Z.of_nat t).
Proof.
  destruct t as [|t]; [reflexivity|].
  unfold completionRate. cbn [orZero default Datatypes.id from_option Nat.eqb].
  apply Math_round_ratio. lia.
Qed.

Lemma completionRate_bounds (t c : nat) :
  (c ≤ t)%nat →
  0 ≤ completionRate (Some t) (Some c) ≤ 100
  ∧ (completionRate (Some t) (Some c) = 0 ↔ t = 0%nat ∨ 200 * Z.of_nat c < Z.of_nat t).
Proof.
  intros Hc. rewrite completionRate_ratio.
  destruct t as [|t]; cbn [Nat.eqb]; [split; [lia|tauto]|].
  set (T := Z.of_nat (S t)) in *. set (C := Z.of_nat c) in *.
  assert (0 < T) by (subst T; lia). assert (0 ≤ C ≤ T) by (subst T C; lia).
  split.
  - split.
    + apply Z.div_pos; lia.
    + assert ((200 * C + T) / (2 * T) < 101); [|lia].
      apply Z.div_lt_upper_bound; lia.
  - rewrite Z.div_small_iff by lia. split; intros; [right; lia|].
    left. destruct H1; [discriminate|lia].
Qed.


Lemma completionRate_nearest (t c : nat) :
  (c ≤ t)%nat →
  Z.abs (2 * Z.of_nat t * completionRate (Some t) (Some c) - 200 * Z.of_nat c)
  ≤ Z.of_nat t.
Proof.
  intros Hc. rewrite completionRate_ratio.
  destruct t as [|t]; cbn [Nat.eqb]; [lia|].
  set (T := Z.of_nat (S t)) in *. set (C := Z.of_nat c) in *.
  assert (0 < T) by (subst T; lia).
  pose proof (Z.div_mod (200 * C + T) (2 * T) ltac:(lia)) as Hdm.
  pose proof (Z.mod_pos_bound (200 * C + T) (2 * T) ltac:(lia)) as Hm.
  lia.
Qed.

Lemma agreesUpTo_sound (n : nat) :
  Binary64.agreesUpTo n = true →
  ∀ t c, (t ≤ n)%nat → (c ≤ t)%nat → Binary64.agrees t c = true.
Proof.
  unfold Binary64.agreesUpTo. intros Hall t c Ht Hc.
  rewrite forallb_forall in Hall.
  specialize (Hall t ltac:(apply in_seq; lia)).
  rewrite forallb_forall in Hall.
  apply Hall, in_seq. lia.
Qed.

Lemma binary64_checked : Binary64.agreesUpTo 200 = true.
Proof. vm_compute. reflexivity. Qed.

(** On totals up to 200 the rate the engine computes on binary64 numbers has
    every property stated of the rate in this file, and it is the exact rate
    except at an exact half, where it may be the integer below. *)
Lemma binary64_rate_agrees (t c : nat) :
  (t ≤ 200)%nat → (c ≤ t)%nat →
  let r := Binary64.completionRate (Some t) (Some c) in
  Z.abs (2 * Z.of_nat t * r - 200 * Z.of_nat c) ≤ Z.of_nat t
  ∧ 0 ≤ r ≤ 100
  ∧ (r = 0 ↔ t = 0%nat ∨ 200 * Z.of_nat c < Z.of_nat t)
  ∧ (r = 100 ↔ t ≠ 0%nat ∧ 199 * Z.of_nat t ≤ 200 * Z.of_nat c)
  ∧ (r = completionRate (Some t) (Some c)
     ∨ (200 * Z.of_nat c) mod (2 * Z.of_nat t) = Z.of_nat t
       ∧ r = completionRate (Some t) (Some c) - 1).
Proof.
  intros Ht Hc r.
  pose proof (agreesUpTo_sound 200 binary64_checked t c Ht Hc) as Hall.
  unfold Binary64.agrees in Hall. fold r in Hall.
  rewrite completionRate_ratio.
  repeat (apply andb_true_iff in Hall as [Hall ?]).
  repeat match goal with
         | H : Bool.eqb _ _ = true |- _ => apply Bool.eqb_prop in H
         end.
  assert (E : (t =? 0)%nat = (Z.of_nat t =? 0)).
  { destruct t; reflexivity. }
  rewrite E.
  repeat split; lia.
Qed.



(** ** Scope *)

(** C7: over the same store at the same instant, every count the dashboard
    answers to a caller who is not an administrator is at most the same count
    answered to an administrator; and whatever further parameters a query
    carries, the tasks and the issues it selects for the former are at most as
    many as for the latter. *)
Theorem scoped_counts_at_most_admin (st : Store) (now : Z) (u a : AuthUser) :
  isAdminOf u = false → isAdminOf a = true →
  (∃ mu ma, dashboard st now u = Ok mu ∧ dashboard st now a = Ok ma ∧ countsLe mu ma)
  ∧ ∀ params : list Filter,
      (List.length (rowsWhere (R:=Task) (db st) (taskScope u ++ params))
       ≤ List.length (rowsWhere (R:=Task) (db st) (taskScope a ++ params)))%nat
      ∧ (List.length (rowsWhere (R:=Issue) (db st) (issueScope u ++ params))
         ≤ List.length (rowsWhere (R:=Issue) (db st) (issueScope a ++ params)))%nat.
Proof.
  intros Hu Ha. split.
  - destruct st as [d [msg|]].
    + rewrite !dashboard_down. do 2 eexists. do 2 (split; [reflexivity|]).
      unfold countsLe, priorityLe. cbn. lia.
    + rewrite !dashboard_up. do 2 eexists. do 2 (split; [reflexivity|]).
      unfold taskScope, issueScope, rowsWhere. rewrite Hu, Ha.
      unfold countsLe, priorityLe.
      cbn [taskMetrics issueMetrics total completedCount inProgress overdue
           byPriority byStatus low medium high critical not_started in_progress
           completed blocked issuesTotal pending issuesByPriority issuesByStatus
           pending_assignment assigned issue_in_progress resolved closed app].
      repeat split;
        first [ apply selected_narrows_length | apply selected_narrows ].
  - intros params. unfold taskScope, issueScope, rowsWhere. rewrite Hu, Ha.
    split; apply selected_narrows_length.
Qed.

Lemma scoped_counts_at_most_admin_witness :
  (∃ mu ma, dashboard oneOpenTask 0 ann = Ok mu
            ∧ dashboard oneOpenTask 0 boss = Ok ma ∧ countsLe mu ma)
  ∧ ∀ params : list Filter,
      (List.length (rowsWhere (R:=Task) (db oneOpenTask) (taskScope ann ++ params))
       ≤ List.length (rowsWhere (R:=Task) (db oneOpenTask) (taskScope boss ++ params)))%nat
      ∧ (List.length (rowsWhere (R:=Issue) (db oneOpenTask) (issueScope ann ++ params))
         ≤ List.length (rowsWhere (R:=Issue) (db oneOpenTask) (issueScope boss ++ params)))%nat.
Proof.
  apply (scoped_counts_at_most_admin oneOpenTask 0 ann boss); reflexivity.
Defined.

(** ** GET /task-completion-trend *)

Lemma utcDay_shift (s i : Z) : utcDay (s + i * msPerDay) = utcDay s + i.
Proof. unfold utcDay. apply Z.div_add. unfold msPerDay. lia. Qed.

Lemma TimeClip_valid (t : Z) : Z.abs t ≤ maxTime → TimeClip t = Some t.
Proof. intros H. unfold TimeClip. rewrite (proj2 (Z.leb_le _ _) H). reflexivity. Qed.

Lemma TimeClip_invalid (t : Z) : maxTime < Z.abs t → TimeClip t = None.
Proof. intros H. unfold TimeClip. rewrite (proj2 (Z.leb_gt _ _) H). reflexivity. Qed.

Lemma trendLoop_run (tasks : list Task) (s : Z) (fuel : nat) :
  ∀ (k : nat) (acc : list TrendPoint) (h : Heap),
    (∀ i, (k ≤ i < k + fuel)%nat → Z.abs (s + Z.of_nat i * msPerDay) ≤ maxTime) →
    trendLoop (Some tasks) (Some s) (Z.of_nat k) fuel acc h
    = (inr (acc ++ List.map (bucketOf tasks s) (seq k fuel)), h).
Proof.
  induction fuel as [|fuel IH]; intros k acc h Hok.
  - cbn. rewrite app_nil_r. reflexivity.
  - cbn [trendLoop]. unfold addDays.
    rewrite TimeClip_valid by (apply Hok; lia).
    cbv [mbind M_bind liftThrown toISOString].
    replace (Z.of_nat k + 1) with (Z.of_nat (S k)) by lia.
    rewrite IH by (intros i Hi; apply Hok; lia).
    cbn [seq List.map]. rewrite <- app_assoc. cbn [app].
    unfold bucketOf at 2. rewrite utcDay_shift. reflexivity.
Qed.

Lemma task_window (start finish : Z) (t : Task) :
  forallb (filterHolds cell t)
    [notBefore "created_at" start; notAfter "created_at" finish]
  = inWindow start finish t.
Proof.
  cbn. unfold inWindow, Z.leb. rewrite (Z.compare_antisym (t_created_at t) start).
  destruct (t_created_at t ?= start), (t_created_at t ?= finish); reflexivity.
Qed.

Lemma filter_filter_comm {A} (p q : A → bool) (l : list A) :
  List.filter p (List.filter q l) = List.filter q (List.filter p l).
Proof.
  induction l as [|x l IH]; [reflexivity|]. cbn.
  destruct (p x) eqn:Hp, (q x) eqn:Hq; cbn; rewrite ?Hp, ?Hq, IH; reflexivity.
Qed.

(** What the trend query fetches: the visible tasks created in the window. *)
Lemma fetched_window (d : Database) (user : AuthUser) (start finish : Z) :
  rowsWhere d ([notBefore "created_at" start; notAfter "created_at" finish]
               ++ taskScope user)
  = List.filter (inWindow start finish) (visibleTasks d user).
Proof.
  unfold visibleTasks, rowsWhere. rewrite selected_app.
  unfold selected at 2.
  rewrite (List.filter_ext _ (inWindow start finish)) by (intros t; apply task_window).
  unfold selected. apply filter_filter_comm.
Qed.
Lemma trend_up (d : Database) (now : Z) (user : AuthUser) (days : option string) (n : Z) :
  parseInt (default "30" days) = Some n →
  (∀ i, (i ≤ Z.to_nat n)%nat →
        Z.abs (now - n * msPerDay + Z.of_nat i * msPerDay) ≤ maxTime) →
  taskCompletionTrend (mkStore d None) now user days =
  Ok (List.map
        (bucketOf (List.filter (inWindow (now - n * msPerDay) now) (visibleTasks d user))
                  (now - n * msPerDay))
        (seq 0 (Z.to_nat n))).
Proof.
  intros Hparse Hdates. unfold taskCompletionTrend. rewrite Hparse.
  cbn [fmap option_fmap option_map]. unfold addDays.
  replace (now + - n * msPerDay) with (now - n * msPerDay) by lia.
  rewrite TimeClip_valid
    by (specialize (Hdates 0%nat ltac:(lia)); rewrite Z.add_0_r in Hdates; exact Hdates).
  rewrite <- fetched_window. unfold taskScope, iterations.
  destruct (isAdminOf user); run_handler;
    rewrite (trendLoop_run _ _ _ 0%nat) by (intros i Hi; apply Hdates; lia);
    reflexivity.
Qed.

Lemma trend_down (d : Database) (msg : string) (now : Z) (user : AuthUser)
    (days : option string) (n : Z) :
  parseInt (default "30" days) = Some n →
  Z.abs (now - n * msPerDay) ≤ maxTime →
  taskCompletionTrend (mkStore d (Some msg)) now user days
  = Failed 400 "Database error" msg.
Proof.
  intros Hparse Hstart. unfold taskCompletionTrend. rewrite Hparse.
  cbn [fmap option_fmap option_map]. unfold addDays.
  replace (now + - n * msPerDay) with (now - n * msPerDay) by lia.
  rewrite TimeClip_valid by exact Hstart.
  destruct (isAdminOf user); run_handler; reflexivity.
Qed.

Lemma trend_invalid_start (st : Backend) (now : Z) (user : AuthUser)
    (days : option string) :
  addDays (Some now) (Z.opp <$> parseInt (default "30" days)) = None →
  taskCompletionTrend st now user days
  = Failed 500 "Internal server error" "Invalid time value".
Proof.
  intros Hstart. unfold taskCompletionTrend. rewrite Hstart.
  run_handler. reflexivity.
Qed.




(** C4, as stated, fails: [days = 0] is neither rejected nor clamped; the
    answer is a successful response with no bucket. *)
Lemma trend_zero_days_is_empty :
  taskCompletionTrend trendStore noon12 boss (Some "0") = Ok [].
Proof. vm_compute. reflexivity. Qed.

(** C4, amended: when [days] does not parse to a positive integer, the
    handler neither clamps nor validates it. A text that is not a number, or a
    start instant outside the range of dates, ends in the 500 answer of the
    catch block; otherwise the answer is the store's error as a 400, or a
    success with a zero-length sequence. *)
Theorem trend_without_positive_days (st : Store) (now : Z) (user : AuthUser)
    (days : option string) :
  (∀ n, parseInt (default "30" days) = Some n → n ≤ 0) →
  taskCompletionTrend st now user days =
  match parseInt (default "30" days) with
  | None => Failed 500 "Internal server error" "Invalid time value"
  | Some n =>
      if Z.abs (now - n * msPerDay) <=? maxTime then
        match outage st with
        | Some msg => Failed 400 "Database error" msg
        | None => Ok []
        end
      else Failed 500 "Internal server error" "Invalid time value"
  end.
Proof.
  intros Hdays. destruct (parseInt (default "30" days)) as [n|] eqn:Hparse.
  - specialize (Hdays n eq_refl).
    destruct (Z.leb_spec (Z.abs (now - n * msPerDay)) maxTime) as [Hok|Hbad].
    + destruct st as [d [msg|]]; cbn [outage].
      * apply (trend_down _ _ _ _ _ n); assumption.
      * rewrite (trend_up _ _ _ _ n Hparse).
        -- replace (Z.to_nat n) with 0%nat by lia. reflexivity.
        -- intros i Hi. replace i with 0%nat by lia. rewrite Z.add_0_r. exact Hok.
    + apply trend_invalid_start. rewrite Hparse. cbn.
      replace (now + - n * msPerDay) with (now - n * msPerDay) by lia.
      apply TimeClip_invalid, Hbad.
  - apply trend_invalid_start. rewrite Hparse. reflexivity.
Qed.

Lemma trend_without_positive_days_witness :
  taskCompletionTrend trendStore noon12 boss (Some "-3") = Ok []
  ∧ taskCompletionTrend trendStore noon12 boss (Some "soon")
    = Failed 500 "Internal server error" "Invalid time value".
Proof.
  split.
  - apply (trend_without_positive_days trendStore noon12 boss (Some "-3")).
    intros n Hn. vm_compute in Hn. injection Hn as <-. lia.
  - apply (trend_without_positive_days trendStore noon12 boss (Some "soon")).
    intros n Hn. vm_compute in Hn. discriminate Hn.
Defined.

(** ** Builders on a heap that already holds others *)

Lemma bind_run {A B} (m : M A) (f : A → M B) (h h' : Heap) (a : A) :
  m h = (inr a, h') → (m ≫= f) h = f a h'.
Proof. intros E. unfold mbind, M_bind. rewrite E. reflexivity. Qed.

Lemma select_run (R : Type) (exact head : bool) (h : Heap) :
  select R exact head h
  = (inr (mkQuery (List.length h)), h ++ [mkBuilder exact head []]).
Proof. reflexivity. Qed.

Lemma param_last {R} (f : Filter) (h : Heap) (b : Builder) :
  param (R:=R) (mkQuery (List.length h)) f (h ++ [b])
  = (inr (mkQuery (List.length h)), h ++ [addParam f b]).
Proof.
  unfold param. cbn [addr].
  rewrite (alter_app_r_alt _ h [b]) by lia. rewrite Nat.sub_diag. reflexivity.
Qed.

Lemma await_last {R} `{Table R} (st : Backend) (h : Heap) (b : Builder) :
  await (R:=R) st (mkQuery (List.length h)) (h ++ [b]) = (inr (execute st b), h ++ [b]).
Proof.
  unfold await. cbn [addr]. rewrite list_lookup_middle by reflexivity. reflexivity.
Qed.

(** Steps a handler through builders created on an arbitrary heap. *)
Ltac step_query :=
  repeat first
    [ erewrite bind_run by
        first [ apply select_run | apply param_last | apply await_last | reflexivity ]
    | progress cbn [addParam b_count b_head b_params app] ].

Lemma mapM_run {A B} (f : A → M B) (g : A → B) :
  (∀ x h, ∃ h', f x h = (inr (g x), h')) →
  ∀ l h, ∃ h', mapM f l h = (inr (List.map g l), h').
Proof.
  intros Hf. induction l as [|x l IH]; intros h.
  - exists h. reflexivity.
  - destruct (Hf x h) as [h1 E1]. destruct (IH h1) as [h2 E2].
    exists h2. cbn [mapM List.map].
    rewrite (bind_run _ _ _ _ _ E1), (bind_run _ _ _ _ _ E2). reflexivity.
Qed.

(** ** GET /recommendations *)

Lemma analyse_run (st : Store) (now : Z) (user : Profile) (h : Heap) :
  ∃ h', analyse st now user h = (inr (snapshot st now user), h').
Proof.
  unfold analyse, eq_, neq, lt, liftThrown, toISOString.
  step_query. eexists. reflexivity.
Qed.

(** The handler applies the rules to one snapshot of the workload. *)
Lemma recommendations_run (st : Store) (now : Z) :
  recommendations st now = Ok (recommend (List.map (snapshot st now) (usersOf st))).
Proof.
  unfold recommendations, usersOf, handle.
  erewrite bind_run by apply select_run.
  erewrite bind_run by apply (await_last (R:=Profile) st []).
  destruct (mapM_run _ _ (analyse_run st now)
              (default [] (data (execute (R:=Profile) st (mkBuilder false false []))))
              ([] ++ [mkBuilder false false []])) as [h' E].
  rewrite (bind_run _ _ _ _ _ E). cbn [mret M_ret].
  destruct st as [d [msg|]]; [reflexivity|].
  cbn [execute whole failing rowsIn outage data b_head b_params default from_option Datatypes.id db].
  rewrite selected_nil. reflexivity.
Qed.

Lemma listed_entries (l : list Workload) :
  listed (overloadedEntry l) = (0 <? List.length l)%nat
  ∧ listed (underutilizedEntry l) = (0 <? List.length l)%nat
  ∧ listed (overdueEntry l) = (0 <? List.length l)%nat
  ∧ listed (lowScoreEntry l) = (0 <? List.length l)%nat.
Proof. destruct l; repeat split; reflexivity. Qed.

(** Each rule contributes its entry exactly when its users are not empty,
    and the entries keep the order of the rules. *)
Lemma recommend_rules (workloadData : list Workload) :
  recommend workloadData =
  List.filter listed
    [ overloadedEntry (List.filter isOverloaded workloadData);
      underutilizedEntry (List.filter isUnderutilized workloadData);
      overdueEntry (List.filter hasOverdue workloadData);
      lowScoreEntry (List.filter hasLowScore workloadData) ].
Proof.
  unfold recommend. cbn [List.filter].
  rewrite (proj1 (listed_entries _)), (proj1 (proj2 (listed_entries _))),
    (proj1 (proj2 (proj2 (listed_entries _)))),
    (proj2 (proj2 (proj2 (listed_entries _)))).
  destruct (0 <? List.length (List.filter isOverloaded workloadData))%nat,
           (0 <? List.length (List.filter isUnderutilized workloadData))%nat,
           (0 <? List.length (List.filter hasOverdue workloadData))%nat,
           (0 <? List.length (List.filter hasLowScore workloadData))%nat;
    reflexivity.
Qed.



(** The example of the spec: fifteen open tasks and a score of 50 put a
    profile among the overloaded and among the low scores at once. *)
Example busy_and_low_score (workloadData : list Workload) :
  In busyLowScore workloadData →
  In busyLowScore (List.filter isOverloaded workloadData)
  ∧ In busyLowScore (List.filter hasLowScore workloadData).
Proof. intros H. split; apply filter_In; split; auto. Qed.

(** The same example through the handler: the answer has the overloaded and
    the low-score entry, both with Ann alone; Bob, whose score is 0, is in
    neither. *)
Example recommendations_busy_and_low_score :
  List.map (snapshot busyStore noon12) (usersOf busyStore) = [busyLowScore; zeroScore]
  ∧ recommendations busyStore noon12
    = Ok [ overloadedEntry [busyLowScore]; lowScoreEntry [busyLowScore] ]
  ∧ affectedUsers (lowScoreEntry [busyLowScore]) = ["Ann"].
Proof. repeat split; vm_compute; reflexivity. Qed.

(** C10: a stored score of exactly 0 is replaced by 100, so the profile is
    never among the users of the low-score rule. *)
Theorem zero_score_is_never_low (workloadData : list Workload) (u : Workload) :
  score u = Some 0 →
  scoreOr100 (score u) = 100
  ∧ hasLowScore u = false
  ∧ ¬ In u (List.filter hasLowScore workloadData).
Proof.
  intros Hs. unfold hasLowScore. rewrite Hs. cbn.
  repeat split. intros Hin. apply filter_In in Hin as [_ Hlow].
  unfold hasLowScore in Hlow. rewrite Hs in Hlow. discriminate Hlow.
Qed.

Lemma zero_score_is_never_low_witness :
  scoreOr100 (score zeroScore) = 100
  ∧ hasLowScore zeroScore = false
  ∧ ¬ In zeroScore (List.filter hasLowScore [busyLowScore; zeroScore]).
Proof.
  apply (zero_score_is_never_low [busyLowScore; zeroScore] zeroScore). reflexivity.
Defined.

(** ** GET /employees-summary *)

Lemma summaryOf_run (st : Store) (now : Z) (user : Profile) (h : Heap) :
  Z.abs (now - getDay now * msPerDay) ≤ maxTime →
  ∃ h', summaryOf st now user h =
    (inr {| employee := user;
            es_activeTasks :=
              countWhere st [assignedTo (p_id user); statusNeq "completed"];
            completedThisWeek :=
              countWhere st [assignedTo (p_id user); statusEq "completed";
                             notBefore "completed_at" (now - getDay now * msPerDay)];
            lateTasks :=
              countWhere st [assignedTo (p_id user);
                             Where (mkCond "late_completion" op_eq (VBool true))];
            es_overdueTasks :=
              countWhere st [assignedTo (p_id user); before "deadline" now;
                             statusNeq "completed"] |}, h').
Proof.
  intros Hweek. unfold summaryOf, eq_, neq, lt, gte, addDays.
  replace (now + - getDay now * msPerDay) with (now - getDay now * msPerDay) by lia.
  rewrite TimeClip_valid by exact Hweek.
  unfold liftThrown, toISOString.
  step_query. eexists. reflexivity.
Qed.

(** The instant the handler counts from is the current time of day on the
    most recent Sunday, which is later than the start of that Sunday by the
    time elapsed since midnight. *)
Lemma weekStart_is_not_midnight (now : Z) :
  now - getDay now * msPerDay = weekStart_spec now + now mod msPerDay.
Proof.
  unfold weekStart_spec, utcDay.
  pose proof (Z.div_mod now msPerDay ltac:(unfold msPerDay; lia)). lia.
Qed.

(** C8, at the failing input: on Tuesday noon, a task completed on the
    Sunday of the same week at 06:00 is not counted by the handler, and is
    counted by the definition worded after the spec. *)
Theorem completedThisWeek_misses_sunday_morning :
  getDay noon12 = 2
  ∧ ∃ s, employeesSummary weekStore noon12 = Ok [s]
         ∧ completedThisWeek s = 0%nat
         ∧ completedThisWeek_spec (db weekStore) noon12 (employee s) = 1%nat.
Proof.
  split; [reflexivity|]. eexists. split; [vm_compute; reflexivity|].
  split; vm_compute; reflexivity.
Qed.

(** ** Errors *)

Lemma userWorkload_down (d : Database) (msg : string) :
  userWorkload (mkStore d (Some msg)) = Failed 400 "Database error" msg.
Proof. unfold userWorkload. run_handler. reflexivity. Qed.

Lemma issueResolutionMetrics_down (d : Database) (msg : string) (user : AuthUser) :
  issueResolutionMetrics (mkStore d (Some msg)) user = Failed 400 "Database error" msg.
Proof.
  unfold issueResolutionMetrics. destruct (isAdminOf user); run_handler; reflexivity.
Qed.

Lemma employeesSummary_down (d : Database) (msg : string) (now : Z) :
  employeesSummary (mkStore d (Some msg)) now = Failed 400 "Database error" msg.
Proof. unfold employeesSummary. run_handler. reflexivity. Qed.

Lemma recommendations_down (d : Database) (msg : string) (now : Z) :
  recommendations (mkStore d (Some msg)) now = Ok [].
Proof. rewrite recommendations_run. reflexivity. Qed.

Lemma trend_down_or_invalid (d : Database) (msg : string) (now : Z)
    (user : AuthUser) (days : option string) :
  taskCompletionTrend (mkStore d (Some msg)) now user days =
  match addDays (Some now) (Z.opp <$> parseInt (default "30" days)) with
  | Some _ => Failed 400 "Database error" msg
  | None => Failed 500 "Internal server error" "Invalid time value"
  end.
Proof.
  destruct (addDays _ _) as [start|] eqn:Hstart.
  - unfold taskCompletionTrend. rewrite Hstart.
    destruct (isAdminOf user); run_handler; reflexivity.
  - apply trend_invalid_start, Hstart.
Qed.

(** Fails the query the handler awaits, whose parameters the hypothesis [H]
    names. *)
Ltac fail_query H :=
  run_handler; unfold execute;
  cbn [tableName tasksTable issuesTable profilesTable b_params addParam app];
  rewrite H; reflexivity.

Lemma userWorkload_primary (w : Backend) (msg : string) :
  failing w "profiles" [] = Some msg →
  userWorkload w = Failed 400 "Database error" msg.
Proof. intros H. unfold userWorkload. fail_query H. Qed.

Lemma employeesSummary_primary (w : Backend) (msg : string) (now : Z) :
  failing w "profiles" [] = Some msg →
  employeesSummary w now = Failed 400 "Database error" msg.
Proof. intros H. unfold employeesSummary. fail_query H. Qed.

Lemma issueResolution_primary (w : Backend) (msg : string) (user : AuthUser) :
  failing w "issues" (issueScope user) = Some msg →
  issueResolutionMetrics w user = Failed 400 "Database error" msg.
Proof.
  intros H. unfold issueResolutionMetrics, issueScope in *.
  destruct (isAdminOf user); fail_query H.
Qed.

Lemma trend_primary (w : Backend) (msg : string) (now : Z) (user : AuthUser)
    (days : option string) (start : Z) :
  addDays (Some now) (Z.opp <$> parseInt (default "30" days)) = Some start →
  failing w "tasks"
    ([notBefore "created_at" start; notAfter "created_at" now] ++ taskScope user)
  = Some msg →
  taskCompletionTrend w now user days = Failed 400 "Database error" msg.
Proof.
  intros Hstart H. unfold taskCompletionTrend, taskScope in *. rewrite Hstart.
  cbn [app] in H. unfold notBefore, notAfter in H.
  destruct (isAdminOf user); fail_query H.
Qed.

(** The count queries made for each profile: only [count] is taken from
    their results, so a failure reads as 0. *)
Lemma workloadOf_unread (w : Backend) (msg : string) (user : Profile) (h : Heap) :
  (∀ params, failing w "tasks" params = Some msg) →
  ∃ h', workloadOf w user h = (inr (idleRow user), h').
Proof.
  intros Hall. unfold workloadOf, eq_. step_query. unfold execute.
  cbn [tableName tasksTable]. rewrite !Hall. eexists. reflexivity.
Qed.

Lemma userWorkload_unread (w : Backend) (msg : string) :
  failing w "profiles" [] = None →
  (∀ params, failing w "tasks" params = Some msg) →
  userWorkload w = Ok (List.map idleRow (profiles (rowsIn w))).
Proof.
  intros Hup Hall. unfold userWorkload, handle.
  erewrite bind_run by apply select_run.
  erewrite bind_run by apply (await_last (R:=Profile) _ []).
  unfold execute. cbn [tableName profilesTable b_params b_head data error rowsOf].
  rewrite Hup. cbn [data error default from_option Datatypes.id].
  rewrite selected_nil.
  destruct (mapM_run _ _ (λ user h, workloadOf_unread w msg user h Hall)
              (profiles (rowsIn w)) ([] ++ [mkBuilder false false []])) as [h' E].
  rewrite (bind_run _ _ _ _ _ E). reflexivity.
Qed.

Lemma summaryOf_unread (w : Backend) (msg : string) (now : Z) (user : Profile)
    (h : Heap) :
  Z.abs (now - getDay now * msPerDay) ≤ maxTime →
  (∀ params, failing w "tasks" params = Some msg) →
  ∃ h', summaryOf w now user h = (inr (idleSummary user), h').
Proof.
  intros Hweek Hall. unfold summaryOf, eq_, neq, lt, gte, addDays.
  replace (now + - getDay now * msPerDay) with (now - getDay now * msPerDay) by lia.
  rewrite TimeClip_valid by exact Hweek.
  unfold liftThrown, toISOString.
  step_query. unfold execute. cbn [tableName tasksTable]. rewrite !Hall.
  eexists. reflexivity.
Qed.

Lemma employeesSummary_unread (w : Backend) (msg : string) (now : Z) :
  Z.abs (now - getDay now * msPerDay) ≤ maxTime →
  failing w "profiles" [] = None →
  (∀ params, failing w "tasks" params = Some msg) →
  employeesSummary w now = Ok (List.map idleSummary (profiles (rowsIn w))).
Proof.
  intros Hweek Hup Hall. unfold employeesSummary, handle.
  erewrite bind_run by apply select_run.
  erewrite bind_run by apply (await_last (R:=Profile) _ []).
  unfold execute. cbn [tableName profilesTable b_params b_head data error rowsOf].
  rewrite Hup. cbn [data error default from_option Datatypes.id].
  rewrite selected_nil.
  destruct (mapM_run _ _ (λ user h, summaryOf_unread w msg now user h Hweek Hall)
              (profiles (rowsIn w)) ([] ++ [mkBuilder false false []])) as [h' E].
  rewrite (bind_run _ _ _ _ _ E). reflexivity.
Qed.




(** ** The response cache *)

Lemma scopes_differ (a b : AuthUser) :
  differentlyScoped a b → Cache.effectiveScope a ≠ Cache.effectiveScope b.
Proof.
  unfold differentlyScoped, Cache.effectiveScope.
  intros [(Ha & Hb & Hid) | Hrole].
  - rewrite Ha, Hb. congruence.
  - destruct (isAdminOf a), (isAdminOf b); congruence.
Qed.

Lemma keys_differ (r : string) (q : list (string * string)) (a b : AuthUser) :
  differentlyScoped a b →
  Cache.keyOf (Cache.mkRequest r a q) ≠ Cache.keyOf (Cache.mkRequest r b q).
Proof.
  intros Hab E. apply (scopes_differ a b Hab).
  unfold Cache.keyOf in E. cbn in E. congruence.
Qed.

Lemma get_put_other {P} (now t life : Z) (k k' : Cache.Key) (p : P)
    (c : gmap Cache.Key (Cache.Entry P)) :
  k ≠ k' → Cache.get now k' (Cache.put t k p life c) = Cache.get now k' c.
Proof.
  intros Hk. unfold Cache.get, Cache.put. rewrite lookup_insert_ne by exact Hk.
  reflexivity.
Qed.

Lemma get_ownPayloads {P} (compute : Cache.Request → Z → Response P)
    (c : gmap Cache.Key (Cache.Entry P)) (now : Z) (k : Cache.Key) (p : P) :
  ownPayloads compute c → Cache.get now k c = Some p →
  ∃ req t, Cache.keyOf req = k ∧ compute req t = Ok p.
Proof.
  intros Hown Hget. unfold Cache.get in Hget.
  destruct (c !! k) as [e|] eqn:Hk; [|discriminate].
  destruct (now <? Cache.created_at e + Cache.ttl e); [|discriminate].
  injection Hget as <-. exact (Hown k e Hk).
Qed.

Lemma reachable_ownPayloads {P} (compute : Cache.Request → Z → Response P)
    (c : gmap Cache.Key (Cache.Entry P)) :
  Cache.reachable compute c → ownPayloads compute c.
Proof.
  induction 1 as [|c life req now Hc IH].
  - intros k e Hk. rewrite lookup_empty in Hk. discriminate.
  - unfold Cache.cacheMiddleware.
    destruct (Cache.get now (Cache.keyOf req) c); [exact IH|].
    destruct (compute req now) as [p|s err m] eqn:Hp; [|exact IH].
    cbn [snd]. intros k e Hk. unfold Cache.put in Hk.
    destruct (decide (Cache.keyOf req = k)) as [<-|Hne].
    + rewrite lookup_insert_eq in Hk. injection Hk as <-.
      exists req, now. split; [reflexivity|exact Hp].
    + rewrite lookup_insert_ne in Hk by exact Hne. exact (IH k e Hk).
Qed.

(** C9: whatever requests a cache has served, the payload it serves to a
    caller was computed for a request with the same route, the same effective
    scope and the same query parameters; the key of a differently scoped
    caller on the same route with the same parameters is another key, and
    storing a payload under it changes nothing of what this caller is
    served. *)
Theorem cache_never_crosses_scopes {P : Type} (life : Z)
    (compute : Cache.Request → Z → Response P)
    (c : gmap Cache.Key (Cache.Entry P))
    (a b : AuthUser) (r : string) (q : list (string * string)) (now : Z) (p : P) :
  Cache.reachable compute c →
  differentlyScoped a b →
  (Cache.cacheMiddleware life compute (Cache.mkRequest r b q) now c).1 = Ok p →
  (∃ req t, compute req t = Ok p
            ∧ Cache.route req = r
            ∧ Cache.effectiveScope (Cache.caller req) = Cache.effectiveScope b
            ∧ Cache.query req = q)
  ∧ Cache.keyOf (Cache.mkRequest r a q) ≠ Cache.keyOf (Cache.mkRequest r b q)
  ∧ ∀ (pa : P) (t t' : Z),
      Cache.get t' (Cache.keyOf (Cache.mkRequest r b q))
        (Cache.put t (Cache.keyOf (Cache.mkRequest r a q)) pa life c)
      = Cache.get t' (Cache.keyOf (Cache.mkRequest r b q)) c.
Proof.
  intros Hc Hab Hserved. split; [|split].
  - assert (∃ req t, Cache.keyOf req = Cache.keyOf (Cache.mkRequest r b q)
                     ∧ compute req t = Ok p) as (req & t & Hk & Hp).
    { unfold Cache.cacheMiddleware in Hserved.
      destruct (Cache.get now _ c) as [p'|] eqn:Hget.
      - cbn in Hserved. injection Hserved as <-.
        exact (get_ownPayloads compute c now _ p' (reachable_ownPayloads _ _ Hc) Hget).
      - destruct (compute (Cache.mkRequest r b q) now) as [p'|s err m] eqn:Hp;
          cbn in Hserved; [|discriminate].
        injection Hserved as <-. eauto. }
    exists req, t. unfold Cache.keyOf in Hk. cbn in Hk.
    injection Hk as Hroute Hscope Hquery. auto.
  - apply keys_differ, Hab.
  - intros pa t t'. apply get_put_other, keys_differ, Hab.
Qed.

Lemma cache_never_crosses_scopes_witness :
  (∃ req t, whoAsked req t = Ok "u-bob"
            ∧ Cache.route req = "/dashboard"
            ∧ Cache.effectiveScope (Cache.caller req) = Cache.effectiveScope bob
            ∧ Cache.query req = [])
  ∧ Cache.keyOf (Cache.mkRequest "/dashboard" ann [])
    ≠ Cache.keyOf (Cache.mkRequest "/dashboard" bob [])
  ∧ ∀ (pa : string) (t t' : Z),
      Cache.get t' (Cache.keyOf (Cache.mkRequest "/dashboard" bob []))
        (Cache.put t (Cache.keyOf (Cache.mkRequest "/dashboard" ann [])) pa 300000
           (Cache.cacheMiddleware 300000 whoAsked
              (Cache.mkRequest "/dashboard" ann []) 0 ∅).2)
      = Cache.get t' (Cache.keyOf (Cache.mkRequest "/dashboard" bob []))
          (Cache.cacheMiddleware 300000 whoAsked
             (Cache.mkRequest "/dashboard" ann []) 0 ∅).2.
Proof.
  apply (cache_never_crosses_scopes 300000 whoAsked
           (Cache.cacheMiddleware 300000 whoAsked
              (Cache.mkRequest "/dashboard" ann []) 0 ∅).2
           ann bob "/dashboard" [] 1000 "u-bob").
  - apply Cache.reach_serve, Cache.reach_empty.
  - left. split; [reflexivity|]. split; [reflexivity|discriminate].
  - reflexivity.
Defined.

(** * Further properties of the handlers *)

(** ** More on selecting rows *)

Lemma filter_filter_le {A} (p q : A → bool) (l : list A) :
  (List.length (List.filter p (List.filter q l)) ≤ List.length (List.filter p l))%nat.
Proof.
  induction l as [|x l IH]; [reflexivity|]. cbn.
  destruct (q x), (p x) eqn:Hp; cbn; rewrite ?Hp; cbn; lia.
Qed.

Lemma filter_implies_le {A} (p q : A → bool) (l : list A) :
  (∀ x, p x = true → q x = true) →
  (List.length (List.filter p l) ≤ List.length (List.filter q l))%nat.
Proof.
  intros Hpq. induction l as [|x l IH]; [reflexivity|]. cbn.
  destruct (p x) eqn:Hp.
  - rewrite (Hpq x Hp). cbn. lia.
  - destruct (q x); cbn; lia.
Qed.

Lemma filter_disjoint_le {A} (p q : A → bool) (l : list A) :
  (∀ x, p x && q x = false) →
  (List.length (List.filter p l) + List.length (List.filter q l) ≤ List.length l)%nat.
Proof.
  intros Hpq. induction l as [|x l IH]; [reflexivity|]. cbn.
  specialize (Hpq x). destruct (p x), (q x); cbn in *; try discriminate; lia.
Qed.

Lemma filter_never {A} (p : A → bool) (l : list A) :
  (∀ x, In x l → p x = false) → List.filter p l = [].
Proof.
  induction l as [|x l IH]; intros H; [reflexivity|]. cbn.
  rewrite (H x (or_introl eq_refl)). apply IH. intros y Hy. apply H. right. exact Hy.
Qed.

Lemma issue_statusEq (i : Issue) (s : string) :
  filterHolds cell i (statusEq s) = String.eqb (i_status i) s.
Proof.
  cbn. destruct (String.eqb_spec (i_status i) s) as [->|Hne].
  - rewrite string_compare_refl. reflexivity.
  - destruct (String.compare (i_status i) s) eqn:E; try reflexivity.
    apply String.compare_eq_iff in E. contradiction.
Qed.

Lemma issues_with_status (d : Database) (ps : list Filter) (s : string) (i : Issue) :
  In i (rowsWhere d (ps ++ [statusEq s])) → i_status i = s.
Proof.
  unfold rowsWhere. rewrite selected_app. unfold selected at 1.
  intros Hin. apply filter_In in Hin as [_ Hs]. cbn [forallb] in Hs.
  rewrite issue_statusEq, andb_true_r in Hs. apply String.eqb_eq, Hs.
Qed.

(** ** GET /dashboard, continued *)

(** X1: on every store, for every caller and instant, the dashboard reports
    no task in progress, no overdue task, an all-zero priority breakdown, and
    a status breakdown whose only possibly non-zero bucket is [completed]:
    these figures are read off [tasksQuery] after it has gathered both
    [status = completed] and [status = in_progress]. *)
Theorem dashboard_stale_task_buckets (st : Store) (now : Z) (user : AuthUser) :
  ∃ m, dashboard st now user = Ok m
       ∧ inProgress (taskMetrics m) = 0%nat
       ∧ overdue (taskMetrics m) = 0%nat
       ∧ byPriority (taskMetrics m) = mkPriorityBreakdown 0 0 0 0
       ∧ byStatus (taskMetrics m)
         = mkStatusBreakdown 0 0 (completedCount (taskMetrics m)) 0.
Proof.
  destruct st as [d [msg|]].
  - rewrite dashboard_down. eexists. split; [reflexivity|]. cbn. auto.
  - rewrite dashboard_up. eexists. split; [reflexivity|].
    cbn [taskMetrics inProgress overdue byPriority byStatus completedCount].
    unfold staleParams. rewrite !completed_and_in_progress. cbn. auto.
Qed.

(** X2: on every store the dashboard's issue total is its pending count,
    namely the number of visible issues awaiting assignment (0 when the store
    fails), and the other four issue status buckets are 0: [issuesQuery] is
    awaited for its rows after [status = pending_assignment] was added to it. *)
Theorem dashboard_issues_are_the_pending_ones (st : Store) (now : Z) (user : AuthUser) :
  ∃ m, dashboard st now user = Ok m
       ∧ issuesTotal (issueMetrics m) = pending (issueMetrics m)
       ∧ pending (issueMetrics m)
         = match outage st with
           | Some _ => 0%nat
           | None =>
               List.length (rowsWhere (R:=Issue) (db st)
                              (issueScope user ++ [statusEq "pending_assignment"]))
           end
       ∧ issuesByStatus (issueMetrics m)
         = mkIssueStatusBreakdown (pending (issueMetrics m)) 0 0 0 0.
Proof.
  destruct st as [d [msg|]].
  - rewrite dashboard_down. eexists. split; [reflexivity|]. cbn. auto.
  - rewrite dashboard_up. eexists. split; [reflexivity|].
    cbn [issueMetrics issuesTotal pending issuesByStatus db outage].
    split; [reflexivity|]. split; [reflexivity|].
    rewrite !(filter_never (issueStatusIs _)); [reflexivity|..];
      intros i Hi; apply issues_with_status in Hi;
      unfold issueStatusIs; rewrite Hi; reflexivity.
Qed.

(** X3: the dashboard never answers with a failure; when the store fails it
    answers with a success whose figures are all 0. *)
Theorem dashboard_hides_store_failure (d : Database) (msg : string) (now : Z)
    (user : AuthUser) :
  dashboard (mkStore d (Some msg)) now user = Ok emptyDashboard
  ∧ ∀ st, ∃ m, dashboard st now user = Ok m.
Proof.
  split; [apply dashboard_down|].
  intros st. unfold dashboard.
  destruct (isAdminOf user); run_handler; eexists; reflexivity.
Qed.

(** ** The completion rate, continued *)

Lemma completionRate_full (t c : nat) :
  (c ≤ t)%nat →
  completionRate (Some t) (Some c) = 100
  ↔ t ≠ 0%nat ∧ 199 * Z.of_nat t ≤ 200 * Z.of_nat c.
Proof.
  intros Hc. rewrite completionRate_ratio.
  destruct t as [|t]; cbn [Nat.eqb]; [split; [discriminate|intros [H _]; congruence]|].
  set (T := Z.of_nat (S t)) in *. set (C := Z.of_nat c) in *.
  assert (0 < T) by (subst T; lia). assert (0 ≤ C ≤ T) by (subst T C; lia).
  split.
  - intros E. split; [discriminate|].
    pose proof (Z.mul_div_le (200 * C + T) (2 * T) ltac:(lia)). lia.
  - intros [_ Hle]. apply Z.le_antisymm.
    + assert ((200 * C + T) / (2 * T) < 101); [|lia].
      apply Z.div_lt_upper_bound; lia.
    + apply Z.div_le_lower_bound; lia.
Qed.

(** X4: the dashboard's completion rate is 100 exactly when there is at least
    one task and 199 * total <= 200 * completed, so it can be 100 while some
    tasks are not completed. *)
Theorem dashboard_full_rate (st : Store) (now : Z) (user : AuthUser) :
  ∃ m, dashboard st now user = Ok m
       ∧ (rate (taskMetrics m) = 100
          ↔ total (taskMetrics m) ≠ 0%nat
            ∧ 199 * Z.of_nat (total (taskMetrics m))
              ≤ 200 * Z.of_nat (completedCount (taskMetrics m))).
Proof.
  destruct st as [d [msg|]].
  - rewrite dashboard_down. eexists. split; [reflexivity|]. cbn.
    split; [discriminate|intros [H _]; congruence].
  - rewrite dashboard_up. eexists. split; [reflexivity|].
    cbn [taskMetrics total completedCount rate].
    apply completionRate_full, selected_app_le.
Qed.

(** X5: for a fixed total, the completion rate does not decrease when the
    number of completed tasks grows. *)
Theorem completionRate_monotone (t c c' : nat) :
  (c ≤ c')%nat →
  completionRate (Some t) (Some c) ≤ completionRate (Some t) (Some c').
Proof.
  intros Hc. rewrite !completionRate_ratio.
  destruct t as [|t]; cbn [Nat.eqb]; [lia|].
  apply Z.div_le_mono; lia.
Qed.

Lemma completionRate_monotone_witness :
  completionRate (Some 8%nat) (Some 3%nat) ≤ completionRate (Some 8%nat) (Some 5%nat).
Proof. apply (completionRate_monotone 8 3 5). lia. Defined.

(** ** GET /task-completion-trend, continued *)

Lemma utcDay_start (now n : Z) : utcDay (now - n * msPerDay) = utcDay now - n.
Proof.
  replace (now - n * msPerDay) with (now + - n * msPerDay) by lia.
  rewrite utcDay_shift. lia.
Qed.

Lemma utcDay_mono (a b : Z) : a ≤ b → utcDay a ≤ utcDay b.
Proof. intros H. unfold utcDay. apply Z.div_le_mono; [unfold msPerDay; lia|exact H]. Qed.

Lemma trend_dates_valid (now n : Z) :
  0 ≤ n → - maxTime ≤ now - n * msPerDay → now ≤ maxTime →
  ∀ i, (i ≤ Z.to_nat n)%nat →
       Z.abs (now - n * msPerDay + Z.of_nat i * msPerDay) ≤ maxTime.
Proof. intros Hn Hlo Hhi i Hi. unfold msPerDay, maxTime in *. lia. Qed.

(** X6: for a positive [days] with valid dates on a store that answers, every
    bucket date lies from [days] days before today up to yesterday, and the last
    bucket is yesterday's: the trend has no bucket for today. *)
Theorem trend_ends_yesterday (st : Store) (now : Z) (user : AuthUser)
    (days : option string) (n : Z) :
  outage st = None →
  parseInt (default "30" days) = Some n →
  0 < n →
  - maxTime ≤ now - n * msPerDay →
  now ≤ maxTime →
  ∃ trend,
    taskCompletionTrend st now user days = Ok trend
    ∧ Forall (λ b, utcDay now - n ≤ date b < utcDay now) trend
    ∧ List.last (List.map date trend) 0 = utcDay now - 1.
Proof.
  intros Hup Hparse Hn Hlo Hhi. destruct st as [d o]. cbn in Hup. subst o.
  rewrite (trend_up d now user days n Hparse (trend_dates_valid now n ltac:(lia) Hlo Hhi)).
  eexists. split; [reflexivity|]. split.
  - apply List.Forall_forall. intros b Hb. apply in_map_iff in Hb as (i & <- & Hi).
    apply in_seq in Hi. cbn [bucketOf date]. rewrite utcDay_start. lia.
  - rewrite List.map_map. cbn [bucketOf date].
    destruct (Z.to_nat n) as [|k] eqn:Hk; [lia|].
    rewrite seq_S, List.map_app. cbn [List.map]. rewrite List.last_last. rewrite utcDay_start. lia.
Qed.

Lemma trend_ends_yesterday_witness :
  ∃ trend,
    taskCompletionTrend trendStore noon12 boss (Some "2") = Ok trend
    ∧ Forall (λ b, utcDay noon12 - 2 ≤ date b < utcDay noon12) trend
    ∧ List.last (List.map date trend) 0 = utcDay noon12 - 1.
Proof.
  apply (trend_ends_yesterday trendStore noon12 boss (Some "2") 2);
    [reflexivity | reflexivity | lia | vm_compute; discriminate
    | vm_compute; discriminate].
Defined.

Lemma filter_split_length {A} (r p q : A → bool) (l : list A) :
  (∀ x, r x = p x || q x) → (∀ x, p x && q x = false) →
  List.length (List.filter r l)
  = (List.length (List.filter p l) + List.length (List.filter q l))%nat.
Proof.
  intros Hr Hpq. induction l as [|x l IH]; [reflexivity|]. cbn.
  rewrite (Hr x). specialize (Hpq x).
  destruct (p x), (q x); cbn in *; try discriminate; lia.
Qed.

(** The buckets of [k] consecutive days count each task created on one of
    those days once. *)
Lemma buckets_partition (l : list Task) (d0 : Z) (k : nat) :
  list_sum (List.map (λ i, List.length (List.filter (createdOn (d0 + Z.of_nat i)) l))
                     (seq 0 k))
  = List.length
      (List.filter (λ t, (d0 <=? utcDay (t_created_at t))
                         && (utcDay (t_created_at t) <? d0 + Z.of_nat k)) l).
Proof.
  induction k as [|k IH].
  - cbn. symmetry. apply length_zero_iff_nil, filter_never.
    intros t _. rewrite Z.add_0_r.
    destruct (Z.leb_spec d0 (utcDay (t_created_at t))),
             (Z.ltb_spec (utcDay (t_created_at t)) d0); cbn; try reflexivity; lia.
  - rewrite seq_S, List.map_app, list_sum_app, IH.
    change (list_sum (List.map ?f [(0 + k)%nat])) with (f k + 0)%nat.
    cbv beta. rewrite Nat.add_0_r. symmetry. apply filter_split_length.
    + intros t. unfold createdOn.
      destruct (Z.leb_spec d0 (utcDay (t_created_at t))),
               (Z.ltb_spec (utcDay (t_created_at t)) (d0 + Z.of_nat (S k))),
               (Z.ltb_spec (utcDay (t_created_at t)) (d0 + Z.of_nat k)),
               (Z.eqb_spec (utcDay (t_created_at t)) (d0 + Z.of_nat k));
        cbn; try reflexivity; lia.
    + intros t. unfold createdOn.
      destruct (Z.leb_spec d0 (utcDay (t_created_at t))),
               (Z.ltb_spec (utcDay (t_created_at t)) (d0 + Z.of_nat k)),
               (Z.eqb_spec (utcDay (t_created_at t)) (d0 + Z.of_nat k));
        cbn; try reflexivity; lia.
Qed.

(** X7: under the same conditions, the [created] counts of the buckets add
    up to the number of fetched tasks created before today: each such task is
    counted in exactly one bucket, and the fetched tasks created today in
    none. *)
Theorem trend_created_total (st : Store) (now : Z) (user : AuthUser)
    (days : option string) (n : Z) :
  outage st = None →
  parseInt (default "30" days) = Some n →
  0 < n →
  - maxTime ≤ now - n * msPerDay →
  now ≤ maxTime →
  let fetched := List.filter (inWindow (now - n * msPerDay) now)
                             (visibleTasks (db st) user) in
  ∃ trend,
    taskCompletionTrend st now user days = Ok trend
    ∧ list_sum (List.map created trend)
      = List.length
          (List.filter (λ t, utcDay (t_created_at t) <? utcDay now) fetched).
Proof.
  intros Hup Hparse Hn Hlo Hhi fetched. destruct st as [d o]. cbn in Hup. subst o.
  cbn [db] in fetched.
  rewrite (trend_up d now user days n Hparse
             (trend_dates_valid now n ltac:(lia) Hlo Hhi)).
  eexists. split; [reflexivity|]. fold fetched.
  rewrite List.map_map. cbn [bucketOf created].
  rewrite buckets_partition. f_equal. apply List.filter_ext_in.
  intros t Ht. apply filter_In in Ht as [_ Hw]. unfold inWindow in Hw.
  apply andb_true_iff in Hw as [Hs _]. apply Z.leb_le, utcDay_mono in Hs.
  rewrite utcDay_start in *.
  destruct (Z.leb_spec (utcDay now - n) (utcDay (t_created_at t))),
           (Z.ltb_spec (utcDay (t_created_at t)) (utcDay now - n + Z.of_nat (Z.to_nat n))),
           (Z.ltb_spec (utcDay (t_created_at t)) (utcDay now));
    cbn; try reflexivity; lia.
Qed.

Lemma trend_created_total_witness :
  ∃ trend,
    taskCompletionTrend trendStore noon12 boss (Some "2") = Ok trend
    ∧ list_sum (List.map created trend)
      = List.length
          (List.filter (λ t, utcDay (t_created_at t) <? utcDay noon12)
             (List.filter (inWindow (noon12 - 2 * msPerDay) noon12)
                          (visibleTasks (db trendStore) boss))).
Proof.
  apply (trend_created_total trendStore noon12 boss (Some "2") 2);
    [reflexivity | reflexivity | lia | vm_compute; discriminate
    | vm_compute; discriminate].
Defined.

Lemma visibleTasks_admin (d : Database) (a : AuthUser) :
  isAdminOf a = true → visibleTasks d a = tasks d.
Proof.
  intros Ha. unfold visibleTasks, taskScope, rowsWhere. rewrite Ha.
  apply selected_nil.
Qed.

Lemma visibleTasks_member (d : Database) (u : AuthUser) :
  isAdminOf u = false →
  visibleTasks d u = List.filter (λ t, existsb (condHolds cell t) (ownTasks (id u)))
                                 (tasks d).
Proof.
  intros Hu. unfold visibleTasks, taskScope, rowsWhere, selected. rewrite Hu.
  apply List.filter_ext. intros t. cbn [forallb filterHolds]. apply andb_true_r.
Qed.

(** What a caller who is not an administrator has fetched is counted at most
    as often as what an administrator has fetched. *)
Lemma fetched_counts_le (d : Database) (u a : AuthUser) (w p : Task → bool) :
  isAdminOf u = false → isAdminOf a = true →
  (List.length (List.filter p (List.filter w (visibleTasks d u)))
   ≤ List.length (List.filter p (List.filter w (visibleTasks d a))))%nat.
Proof.
  intros Hu Ha. rewrite (visibleTasks_admin d a Ha), (visibleTasks_member d u Hu).
  rewrite (filter_filter_comm w). apply filter_filter_le.
Qed.

(** X8: for a non-negative [days] with valid dates on a store that answers,
    the trend of a caller who is not an administrator has the same dates as an
    administrator's, and bucket by bucket its counts are at most the
    administrator's. *)
Theorem trend_scoped_at_most_admin (st : Store) (now : Z) (u a : AuthUser)
    (days : option string) (n : Z) :
  isAdminOf u = false → isAdminOf a = true →
  outage st = None →
  parseInt (default "30" days) = Some n →
  0 ≤ n →
  - maxTime ≤ now - n * msPerDay →
  now ≤ maxTime →
  ∃ tu ta,
    taskCompletionTrend st now u days = Ok tu
    ∧ taskCompletionTrend st now a days = Ok ta
    ∧ Forall2 (λ x y, date x = date y
                      ∧ (created x ≤ created y)%nat
                      ∧ (completedThatDay x ≤ completedThatDay y)%nat) tu ta.
Proof.
  intros Hu Ha Hup Hparse Hn Hlo Hhi. destruct st as [d o]. cbn in Hup. subst o.
  rewrite !(trend_up d now _ days n Hparse (trend_dates_valid now n Hn Hlo Hhi)).
  do 2 eexists. do 2 (split; [reflexivity|]).
  induction (seq 0 (Z.to_nat n)) as [|i l IH]; cbn [List.map]; constructor; [|exact IH].
  cbn [bucketOf date created completedThatDay].
  split; [reflexivity|]. split; apply fetched_counts_le; assumption.
Qed.

Lemma trend_scoped_at_most_admin_witness :
  ∃ tu ta,
    taskCompletionTrend trendStore noon12 ann (Some "2") = Ok tu
    ∧ taskCompletionTrend trendStore noon12 boss (Some "2") = Ok ta
    ∧ Forall2 (λ x y, date x = date y
                      ∧ (created x ≤ created y)%nat
                      ∧ (completedThatDay x ≤ completedThatDay y)%nat) tu ta.
Proof.
  apply (trend_scoped_at_most_admin trendStore noon12 ann boss (Some "2") 2);
    [reflexivity | reflexivity | reflexivity | reflexivity | lia
    | vm_compute; discriminate | vm_compute; discriminate].
Defined.

(** X9: when [days] is a number whose start instant [now - days * 24h] is
    outside the range of dates, the handler answers with the 500 of its catch
    block, whatever the store. *)
Theorem trend_start_out_of_range (st : Store) (now : Z) (user : AuthUser)
    (days : option string) (n : Z) :
  parseInt (default "30" days) = Some n →
  maxTime < Z.abs (now - n * msPerDay) →
  taskCompletionTrend st now user days
  = Failed 500 "Internal server error" "Invalid time value".
Proof.
  intros Hparse Hbad. apply trend_invalid_start. rewrite Hparse. cbn.
  replace (now + - n * msPerDay) with (now - n * msPerDay) by lia.
  apply TimeClip_invalid, Hbad.
Qed.

Lemma trend_start_out_of_range_witness :
  taskCompletionTrend trendStore noon12 boss (Some "200000000")
  = Failed 500 "Internal server error" "Invalid time value".
Proof.
  apply (trend_start_out_of_range trendStore noon12 boss (Some "200000000") 200000000);
    [reflexivity | vm_compute; reflexivity].
Defined.

(** ** GET /user-workload *)

Lemma workloadOf_run (st : Store) (user : Profile) (h : Heap) :
  ∃ h', workloadOf st user h = (inr (workloadRow st user), h').
Proof.
  unfold workloadOf, eq_. step_query. eexists. reflexivity.
Qed.

Lemma userWorkload_up (d : Database) :
  userWorkload (mkStore d None)
  = Ok (List.map (workloadRow (mkStore d None)) (profiles d)).
Proof.
  unfold userWorkload, handle.
  erewrite bind_run by apply select_run.
  erewrite bind_run by apply (await_last (R:=Profile) _ []).
  cbn [execute whole failing rowsIn outage data error b_head b_params default from_option Datatypes.id db].
  rewrite selected_nil.
  destruct (mapM_run _ _ (workloadOf_run (mkStore d None)) (profiles d)
              ([] ++ [mkBuilder false false []])) as [h' E].
  rewrite (bind_run _ _ _ _ _ E). reflexivity.
Qed.

Lemma tasks_by_status_le (d : Database) (a : Filter) (s s' : string) :
  s ≠ s' →
  (List.length (rowsWhere (R:=Task) d [a; statusEq s])
   + List.length (rowsWhere (R:=Task) d [a; statusEq s'])
   ≤ List.length (rowsWhere (R:=Task) d [a]))%nat.
Proof.
  intros Hs. unfold rowsWhere.
  rewrite (selected_app cell [a] [statusEq s]), (selected_app cell [a] [statusEq s']).
  unfold selected at 1 3. apply filter_disjoint_le.
  intros t. cbn [forallb]. rewrite !task_statusEq, !andb_true_r.
  destruct (String.eqb_spec (t_status t) s) as [->|]; [|reflexivity].
  apply String.eqb_neq in Hs. rewrite Hs. reflexivity.
Qed.

(** X10: on a store that answers, the user workload has one row per
    profile, in the order of the profiles; in every row the completed and the
    in-progress tasks together are at most the total, and the rate lies between
    0 and 100. *)
Theorem userWorkload_rows (st : Store) :
  outage st = None →
  ∃ rows,
    userWorkload st = Ok rows
    ∧ List.map userId rows = List.map p_id (profiles (db st))
    ∧ Forall (λ r, (completedTasks r + inProgressTasks r ≤ totalTasks r)%nat
                   ∧ 0 ≤ workloadRate r ≤ 100) rows.
Proof.
  intros Hup. destruct st as [d o]. cbn in Hup. subst o.
  rewrite userWorkload_up. eexists. split; [reflexivity|]. split.
  - rewrite List.map_map. reflexivity.
  - apply List.Forall_forall. intros r Hr. apply in_map_iff in Hr as (p & <- & _).
    unfold workloadRow.
    cbn [execute whole failing rowsIn outage b_head b_count b_params count totalTasks completedTasks
         inProgressTasks workloadRate orZero default from_option Datatypes.id db].
    split.
    + apply (tasks_by_status_le d (assignedTo (p_id p)) "completed" "in_progress").
      discriminate.
    + apply completionRate_bounds.
      apply (selected_app_le cell [assignedTo (p_id p)] [statusEq "completed"]).
Qed.

Lemma userWorkload_rows_witness :
  ∃ rows,
    userWorkload weekStore = Ok rows
    ∧ List.map userId rows = List.map p_id (profiles (db weekStore))
    ∧ Forall (λ r, (completedTasks r + inProgressTasks r ≤ totalTasks r)%nat
                   ∧ 0 ≤ workloadRate r ≤ 100) rows.
Proof. apply (userWorkload_rows weekStore). reflexivity. Defined.

(** ** GET /issue-resolution-metrics *)

Lemma issueResolution_up (d : Database) (user : AuthUser) :
  let seen := visibleIssues d user in
  let timed :=
    List.filter (λ i, isResolved i && bool_decide (is_Some (i_resolved_at i))
                                   && bool_decide (is_Some (i_created_at i))) seen in
  let totalTime := fold_left (λ sum issue, sum + resolutionTime issue) timed 0 in
  issueResolutionMetrics (mkStore d None) user =
  Ok {| rm_total := List.length seen;
        rm_resolved := List.length (List.filter isResolved seen);
        rm_pending := List.length (List.filter (issueStatusIs "pending_assignment") seen);
        rm_assigned :=
          List.length (List.filter (λ i, String.eqb (i_status i) "assigned"
                                         || String.eqb (i_status i) "in_progress") seen);
        resolutionRate :=
          completionRate (Some (List.length seen))
                         (Some (List.length (List.filter isResolved seen)));
        avgResolutionTimeHours :=
          if (0 <? List.length timed)%nat then
            Math_round (inject_Z totalTime
                        / inject_Z (Z.of_nat (List.length timed))
                        / inject_Z (1000 * 60 * 60))%Q
          else 0 |}.
Proof.
  unfold issueResolutionMetrics, visibleIssues, issueScope, rowsWhere.
  destruct (isAdminOf user); run_handler;
    (destruct (List.length (selected cell _ (rowsOf d))); reflexivity).
Qed.

Lemma filter_disjoint3_le {A} (p q r : A → bool) (l : list A) :
  (∀ x, p x && q x = false) → (∀ x, p x && r x = false) → (∀ x, q x && r x = false) →
  (List.length (List.filter p l) + List.length (List.filter q l)
   + List.length (List.filter r l) ≤ List.length l)%nat.
Proof.
  intros Hpq Hpr Hqr. induction l as [|x l IH]; [reflexivity|]. cbn.
  specialize (Hpq x). specialize (Hpr x). specialize (Hqr x).
  destruct (p x), (q x), (r x); cbn in *; try discriminate; lia.
Qed.

(** X11: on a store that answers, the resolved, pending and assigned counts
    of the issue metrics together are at most the total, the resolution rate
    lies between 0 and 100, and it is 0 exactly when there is no issue or
    200 * resolved < total. *)
Theorem issueResolution_bounds (st : Store) (user : AuthUser) :
  outage st = None →
  ∃ m, issueResolutionMetrics st user = Ok m
       ∧ (rm_resolved m + rm_pending m + rm_assigned m ≤ rm_total m)%nat
       ∧ 0 ≤ resolutionRate m ≤ 100
       ∧ (resolutionRate m = 0
          ↔ rm_total m = 0%nat
            ∨ 200 * Z.of_nat (rm_resolved m) < Z.of_nat (rm_total m)).
Proof.
  intros Hup. destruct st as [d o]. cbn in Hup. subst o.
  rewrite issueResolution_up. eexists. split; [reflexivity|].
  cbn [rm_total rm_resolved rm_pending rm_assigned resolutionRate]. split.
  - apply filter_disjoint3_le; intros i; unfold isResolved, issueStatusIs;
      destruct (String.eqb_spec (i_status i) "resolved") as [->|];
      try reflexivity;
      destruct (String.eqb_spec (i_status i) "closed") as [->|];
      try reflexivity;
      destruct (String.eqb_spec (i_status i) "pending_assignment") as [->|];
      reflexivity.
  - apply completionRate_bounds, filter_length_le.
Qed.

Lemma issueResolution_bounds_witness :
  ∃ m, issueResolutionMetrics issueStore ann = Ok m
       ∧ (rm_resolved m + rm_pending m + rm_assigned m ≤ rm_total m)%nat
       ∧ 0 ≤ resolutionRate m ≤ 100
       ∧ (resolutionRate m = 0
          ↔ rm_total m = 0%nat
            ∨ 200 * Z.of_nat (rm_resolved m) < Z.of_nat (rm_total m)).
Proof. apply (issueResolution_bounds issueStore ann). reflexivity. Defined.

Lemma visibleIssues_admin (d : Database) (a : AuthUser) :
  isAdminOf a = true → visibleIssues d a = issues d.
Proof.
  intros Ha. unfold visibleIssues, issueScope, rowsWhere. rewrite Ha.
  apply selected_nil.
Qed.

Lemma visibleIssues_member (d : Database) (u : AuthUser) :
  isAdminOf u = false →
  visibleIssues d u = List.filter (λ i, existsb (condHolds cell i) (ownIssues (id u)))
                                  (issues d).
Proof.
  intros Hu. unfold visibleIssues, issueScope, rowsWhere, selected. rewrite Hu.
  apply List.filter_ext. intros i. cbn [forallb filterHolds]. apply andb_true_r.
Qed.

(** X12: on a store that answers, each of the four issue counts answered to
    a caller who is not an administrator is at most the one answered to an
    administrator. *)
Theorem issueResolution_scoped_at_most_admin (st : Store) (u a : AuthUser) :
  isAdminOf u = false → isAdminOf a = true → outage st = None →
  ∃ mu ma,
    issueResolutionMetrics st u = Ok mu
    ∧ issueResolutionMetrics st a = Ok ma
    ∧ (rm_total mu ≤ rm_total ma ∧ rm_resolved mu ≤ rm_resolved ma
       ∧ rm_pending mu ≤ rm_pending ma ∧ rm_assigned mu ≤ rm_assigned ma)%nat.
Proof.
  intros Hu Ha Hup. destruct st as [d o]. cbn in Hup. subst o.
  rewrite !issueResolution_up. do 2 eexists. do 2 (split; [reflexivity|]).
  cbn [rm_total rm_resolved rm_pending rm_assigned].
  rewrite (visibleIssues_admin d a Ha), (visibleIssues_member d u Hu).
  repeat split; first [apply filter_length_le | apply filter_filter_le].
Qed.

Lemma issueResolution_scoped_at_most_admin_witness :
  ∃ mu ma,
    issueResolutionMetrics issueStore ann = Ok mu
    ∧ issueResolutionMetrics issueStore boss = Ok ma
    ∧ (rm_total mu ≤ rm_total ma ∧ rm_resolved mu ≤ rm_resolved ma
       ∧ rm_pending mu ≤ rm_pending ma ∧ rm_assigned mu ≤ rm_assigned ma)%nat.
Proof.
  apply (issueResolution_scoped_at_most_admin issueStore ann boss); reflexivity.
Defined.

Lemma Math_round_nonneg (x : Q) : (0 <= x)%Q → 0 ≤ Math_round x.
Proof.
  intros Hx. unfold Math_round. change 0 with (Qfloor 0).
  apply Qfloor_resp_le.
  apply (Qle_trans _ (x + 0)%Q); [rewrite Qplus_0_r; exact Hx|].
  apply Qplus_le_compat; [apply Qle_refl|discriminate].
Qed.

Lemma inject_Z_nonneg (z : Z) : 0 ≤ z → (0 <= inject_Z z)%Q.
Proof. intros Hz. unfold Qle. cbn. lia. Qed.

Lemma total_time_nonneg (l : list Issue) (acc : Z) :
  0 ≤ acc → (∀ i, In i l → 0 ≤ resolutionTime i) →
  0 ≤ fold_left (λ sum issue, sum + resolutionTime issue) l acc.
Proof.
  revert acc. induction l as [|i l IH]; intros acc Hacc Hl; [exact Hacc|].
  cbn [fold_left]. apply IH.
  - specialize (Hl i (or_introl eq_refl)). lia.
  - intros j Hj. apply Hl. right. exact Hj.
Qed.

Lemma filter_none {A} (p : A → bool) (l : list A) :
  (∀ x, In x l → p x = false) → List.filter p l = [].
Proof.
  induction l as [|x l IH]; intros Hl; [reflexivity|]. cbn [List.filter].
  rewrite (Hl x (or_introl eq_refl)). apply IH.
  intros y Hy. apply Hl. right. exact Hy.
Qed.



(** ** GET /employees-summary, continued *)

Lemma employeesSummary_up (d : Database) (now : Z) :
  Z.abs (now - getDay now * msPerDay) ≤ maxTime →
  employeesSummary (mkStore d None) now
  = Ok (List.map (summaryRow (mkStore d None) now) (profiles d)).
Proof.
  intros Hweek. unfold employeesSummary, handle.
  erewrite bind_run by apply select_run.
  erewrite bind_run by apply (await_last (R:=Profile) _ []).
  cbn [execute whole failing rowsIn outage data error b_head b_params default from_option Datatypes.id db].
  rewrite selected_nil.
  destruct (mapM_run _ (summaryRow (mkStore d None) now)
              (λ user h, summaryOf_run (mkStore d None) now user h Hweek)
              (profiles d) ([] ++ [mkBuilder false false []])) as [h' E].
  rewrite (bind_run _ _ _ _ _ E). reflexivity.
Qed.

Lemma task_assignedTo (t : Task) (userId : string) :
  filterHolds cell t (assignedTo userId)
  = bool_decide (t_assigned_to t = Some userId).
Proof.
  unfold assignedTo. cbn [filterHolds]. unfold condHolds. cbn [c_col c_val c_op].
  change (cell t "assigned_to") with (textOf (t_assigned_to t)).
  destruct (t_assigned_to t) as [a|]; cbn.
  - destruct (String.eqb_spec a userId) as [->|Hne].
    + rewrite string_compare_refl, bool_decide_eq_true_2; reflexivity.
    + rewrite bool_decide_eq_false_2 by congruence.
      destruct (String.compare a userId) eqn:E; try reflexivity.
      apply String.compare_eq_iff in E. contradiction.
  - rewrite bool_decide_eq_false_2 by discriminate. reflexivity.
Qed.

Lemma task_completedSince (t : Task) (w : Z) :
  filterHolds cell t (notBefore "completed_at" w)
  = match t_completed_at t with
    | Some c => w <=? c
    | None => false
    end.
Proof.
  unfold notBefore. cbn [filterHolds]. unfold condHolds. cbn [c_col c_val c_op].
  change (cell t "completed_at") with (timeOf (t_completed_at t)).
  destruct (t_completed_at t) as [c|]; cbn; [|reflexivity].
  unfold Z.leb. rewrite (Z.compare_antisym c w).
  destruct (c ?= w); reflexivity.
Qed.

(** The handler's test for "completed this week", on one task. *)
Lemma completedThisWeek_test (t : Task) (userId : string) (w : Z) :
  forallb (filterHolds cell t)
    [assignedTo userId; statusEq "completed"; notBefore "completed_at" w]
  = bool_decide (t_assigned_to t = Some userId)
    && String.eqb (t_status t) "completed"
    && match t_completed_at t with
       | Some c => w <=? c
       | None => false
       end.
Proof.
  cbn [forallb]. rewrite task_assignedTo, task_statusEq, task_completedSince.
  rewrite andb_true_r, andb_assoc. reflexivity.
Qed.

Lemma weekStart_after_midnight (now : Z) :
  weekStart_spec now ≤ now - getDay now * msPerDay.
Proof.
  rewrite weekStart_is_not_midnight.
  pose proof (Z.mod_pos_bound now msPerDay ltac:(unfold msPerDay; lia)). lia.
Qed.

(** X14: on a store that answers (and with the week start a valid date), the
    employees summary has one row per profile, in the order of the profiles and
    carrying the profile unchanged, and in every row the overdue tasks are at
    most the active ones. *)
Theorem employeesSummary_rows (st : Store) (now : Z) :
  outage st = None →
  Z.abs (now - getDay now * msPerDay) ≤ maxTime →
  ∃ rows,
    employeesSummary st now = Ok rows
    ∧ List.map employee rows = profiles (db st)
    ∧ Forall (λ r, (es_overdueTasks r ≤ es_activeTasks r)%nat) rows.
Proof.
  intros Hup Hweek. destruct st as [d o]. cbn in Hup. subst o.
  rewrite (employeesSummary_up d now Hweek). eexists. split; [reflexivity|]. split.
  - rewrite List.map_map. cbn [summaryRow employee]. apply List.map_id.
  - apply List.Forall_forall. intros r Hr. apply in_map_iff in Hr as (p & <- & _).
    cbn [summaryRow es_overdueTasks es_activeTasks].
    unfold countWhere.
    cbn [execute whole failing rowsIn outage b_count b_params count orZero default from_option
         Datatypes.id db].
    unfold selected. apply filter_implies_le. intros t. cbn [forallb].
    intros H. apply andb_true_iff in H as [Ha H].
    apply andb_true_iff in H as [_ H]. rewrite Ha. exact H.
Qed.

Lemma employeesSummary_rows_witness :
  ∃ rows,
    employeesSummary weekStore noon12 = Ok rows
    ∧ List.map employee rows = profiles (db weekStore)
    ∧ Forall (λ r, (es_overdueTasks r ≤ es_activeTasks r)%nat) rows.
Proof.
  apply (employeesSummary_rows weekStore noon12);
    [reflexivity | vm_compute; discriminate].
Defined.

(** X15: the handler's [completedThisWeek] is never more than the number of
    tasks completed since 00:00 UTC of the most recent Sunday: counting from
    that Sunday at the current time of day can only leave tasks out. *)
Theorem completedThisWeek_never_overcounts (st : Store) (now : Z) :
  outage st = None →
  Z.abs (now - getDay now * msPerDay) ≤ maxTime →
  ∃ rows,
    employeesSummary st now = Ok rows
    ∧ Forall (λ r, (completedThisWeek r
                    ≤ completedThisWeek_spec (db st) now (employee r))%nat) rows.
Proof.
  intros Hup Hweek. destruct st as [d o]. cbn in Hup. subst o.
  rewrite (employeesSummary_up d now Hweek). eexists. split; [reflexivity|].
  apply List.Forall_forall. intros r Hr. apply in_map_iff in Hr as (p & <- & _).
  cbn [summaryRow completedThisWeek employee]. unfold countWhere, completedThisWeek_spec.
  cbn [execute whole failing rowsIn outage b_count b_params count orZero default from_option
       Datatypes.id db].
  unfold selected. apply filter_implies_le. intros t.
  rewrite completedThisWeek_test. intros H.
  apply andb_true_iff in H as [H Hc]. rewrite H. cbn [andb].
  destruct (t_completed_at t) as [c|]; [|discriminate].
  pose proof (weekStart_after_midnight now). lia.
Qed.

Lemma completedThisWeek_never_overcounts_witness :
  ∃ rows,
    employeesSummary weekStore noon12 = Ok rows
    ∧ Forall (λ r, (completedThisWeek r
                    ≤ completedThisWeek_spec (db weekStore) noon12 (employee r))%nat)
             rows.
Proof.
  apply (completedThisWeek_never_overcounts weekStore noon12);
    [reflexivity | vm_compute; discriminate].
Defined.

(** X16: when the request arrives exactly at midnight UTC,
    [completedThisWeek] is the number of tasks completed since 00:00 UTC of the
    most recent Sunday. *)
Theorem completedThisWeek_exact_at_midnight (st : Store) (now : Z) :
  outage st = None →
  Z.abs (now - getDay now * msPerDay) ≤ maxTime →
  now mod msPerDay = 0 →
  ∃ rows,
    employeesSummary st now = Ok rows
    ∧ Forall (λ r, completedThisWeek r
                   = completedThisWeek_spec (db st) now (employee r)) rows.
Proof.
  intros Hup Hweek Hmid. destruct st as [d o]. cbn in Hup. subst o.
  rewrite (employeesSummary_up d now Hweek). eexists. split; [reflexivity|].
  apply List.Forall_forall. intros r Hr. apply in_map_iff in Hr as (p & <- & _).
  cbn [summaryRow completedThisWeek employee]. unfold countWhere, completedThisWeek_spec.
  cbn [execute whole failing rowsIn outage b_count b_params count orZero default from_option
       Datatypes.id db].
  unfold selected. f_equal. apply List.filter_ext. intros t.
  rewrite completedThisWeek_test, weekStart_is_not_midnight, Hmid, Z.add_0_r.
  reflexivity.
Qed.

Lemma completedThisWeek_exact_at_midnight_witness :
  ∃ rows,
    employeesSummary weekStore midnight12 = Ok rows
    ∧ Forall (λ r, completedThisWeek r
                   = completedThisWeek_spec (db weekStore) midnight12 (employee r))
             rows.
Proof.
  apply (completedThisWeek_exact_at_midnight weekStore midnight12);
    [reflexivity | vm_compute; discriminate | reflexivity].
Defined.

(** ** GET /recommendations, continued *)

(** X17: the recommendations handler always answers with a success of at
    most four entries, none of which has an empty list of users; when the store
    fails the list of entries is empty. *)
Theorem recommendations_shape (st : Store) (now : Z) :
  ∃ recs,
    recommendations st now = Ok recs
    ∧ (List.length recs ≤ 4)%nat
    ∧ Forall (λ r, affectedUsers r ≠ []) recs
    ∧ match outage st with
      | Some _ => recs = []
      | None => True
      end.
Proof.
  rewrite recommendations_run, recommend_rules. eexists. split; [reflexivity|].
  split; [|split].
  - etransitivity; [apply filter_length_le|]. cbn. lia.
  - apply List.Forall_forall. intros r Hr. apply filter_In in Hr as [_ Hl].
    unfold listed in Hl. destruct (affectedUsers r); [discriminate|discriminate].
  - destruct st as [d [msg|]]; [reflexivity|exact I].
Qed.

Lemma filter_map_comm {A B} (f : A → B) (p : B → bool) (l : list A) :
  List.filter p (List.map f l) = List.map f (List.filter (λ x, p (f x)) l).
Proof.
  induction l as [|x l IH]; [reflexivity|]. cbn.
  destruct (p (f x)); cbn; rewrite IH; reflexivity.
Qed.

Lemma hasLowScore_snapshot (st : Store) (now : Z) (p : Profile) :
  hasLowScore (snapshot st now p) = storedLowScore p.
Proof.
  unfold hasLowScore, storedLowScore, score. cbn [snapshot profile].
  destruct (p_score p) as [[|n|n]|]; reflexivity.
Qed.

(** X18: the users of the low-score entry are the full names, in profile
    order, of the profiles whose stored score is present, not 0, and below 70;
    a profile without a score, or with the score 0, is never among them. *)
Theorem low_score_users_by_profile (st : Store) (now : Z) :
  ∃ r1 r2 r3 r4,
    recommendations st now = Ok (List.filter listed [r1; r2; r3; r4])
    ∧ title r4 = "Düşük Performans Puanı"
    ∧ affectedUsers r4
      = List.map p_full_name (List.filter storedLowScore (usersOf st)).
Proof.
  rewrite recommendations_run, recommend_rules. do 4 eexists.
  split; [reflexivity|]. split; [reflexivity|].
  cbn [lowScoreEntry affectedUsers].
  rewrite filter_map_comm, List.map_map.
  rewrite (List.filter_ext _ storedLowScore) by apply hasLowScore_snapshot.
  reflexivity.
Qed.

(** X19: in the workload computed for a profile, the overdue tasks are at
    most the active ones, so a profile with an overdue task has an active
    one. *)
Theorem snapshot_overdue_are_active (st : Store) (now : Z) (user : Profile) :
  (overdueTasks (snapshot st now user) ≤ activeTasks (snapshot st now user))%nat.
Proof.
  cbn [snapshot overdueTasks activeTasks]. unfold countWhere.
  destruct st as [d [msg|]]; [reflexivity|].
  cbn [execute whole failing rowsIn outage b_count b_params count orZero default from_option
       Datatypes.id db].
  unfold selected. apply filter_implies_le. intros t. cbn [forallb].
  intros H. apply andb_true_iff in H as [Ha H].
  apply andb_true_iff in H as [_ H]. rewrite Ha. exact H.
Qed.

(** ** What a caller sees *)

Lemma text_eq_holds (o : option string) (userId : string) :
  match compareValues (textOf o) (VText userId) with
  | Some c => holds op_eq c
  | None => false
  end = bool_decide (o = Some userId).
Proof.
  destruct o as [a|]; cbn.
  - destruct (String.eqb_spec a userId) as [->|Hne].
    + rewrite string_compare_refl, bool_decide_eq_true_2; reflexivity.
    + rewrite bool_decide_eq_false_2 by congruence.
      destruct (String.compare a userId) eqn:E; try reflexivity.
      apply String.compare_eq_iff in E. contradiction.
  - rewrite bool_decide_eq_false_2 by discriminate. reflexivity.
Qed.

Lemma ownTasks_holds (userId : string) (t : Task) :
  existsb (condHolds cell t) (ownTasks userId) = ownsTask userId t.
Proof.
  unfold ownTasks, ownsTask. cbn [existsb]. unfold condHolds. cbn [c_col c_val c_op].
  change (cell t "assigned_to") with (textOf (t_assigned_to t)).
  change (cell t "created_by") with (textOf (t_created_by t)).
  rewrite !text_eq_holds, orb_false_r. reflexivity.
Qed.

Lemma ownIssues_holds (userId : string) (i : Issue) :
  existsb (condHolds cell i) (ownIssues userId) = involvedIn userId i.
Proof.
  unfold ownIssues, involvedIn. cbn [existsb]. unfold condHolds. cbn [c_col c_val c_op].
  change (cell i "reported_by") with (textOf (i_reported_by i)).
  change (cell i "suggested_assignee_id") with (textOf (i_suggested_assignee_id i)).
  change (cell i "assigned_to") with (textOf (i_assigned_to i)).
  rewrite !text_eq_holds, orb_false_r, orb_assoc. reflexivity.
Qed.

(** X20: on a store that answers, the dashboard's task total is the number
    of all tasks for an administrator, and for any other caller the number of
    tasks assigned to or created by the caller. *)
Theorem dashboard_total_is_own_tasks (st : Store) (now : Z) (user : AuthUser) :
  outage st = None →
  ∃ m, dashboard st now user = Ok m
       ∧ total (taskMetrics m)
         = List.length
             (List.filter (λ t, isAdminOf user || ownsTask (id user) t)
                          (tasks (db st))).
Proof.
  intros Hup. destruct st as [d o]. cbn in Hup. subst o.
  rewrite dashboard_up. eexists. split; [reflexivity|].
  cbn [taskMetrics total db]. fold (visibleTasks d user).
  destruct (isAdminOf user) eqn:Ha.
  - rewrite (visibleTasks_admin d user Ha). cbn [orb]. rewrite filter_all. reflexivity.
  - rewrite (visibleTasks_member d user Ha). cbn [orb]. f_equal.
    apply List.filter_ext. intros t. apply ownTasks_holds.
Qed.

Lemma dashboard_total_is_own_tasks_witness :
  ∃ m, dashboard trendStore noon12 ann = Ok m
       ∧ total (taskMetrics m)
         = List.length
             (List.filter (λ t, isAdminOf ann || ownsTask (id ann) t)
                          (tasks (db trendStore))).
Proof. apply (dashboard_total_is_own_tasks trendStore noon12 ann). reflexivity. Defined.

Lemma filter_partition3 {A} (p q r : A → bool) (l : list A) :
  (∀ x, p x && q x = false) → (∀ x, p x && r x = false) → (∀ x, q x && r x = false) →
  (∀ x, In x l → p x || q x || r x = true) →
  (List.length (List.filter p l) + List.length (List.filter q l)
   + List.length (List.filter r l) = List.length l)%nat.
Proof.
  intros Hpq Hpr Hqr. induction l as [|x l IH]; intros Hall; [reflexivity|]. cbn.
  specialize (IH (λ y Hy, Hall y (or_intror Hy))).
  specialize (Hall x (or_introl eq_refl)).
  specialize (Hpq x). specialize (Hpr x). specialize (Hqr x).
  destruct (p x), (q x), (r x); cbn in *; try discriminate; lia.
Qed.

(** X21: when every issue has one of the five statuses the handlers name,
    the resolved, pending and assigned counts of the issue metrics add up to
    the total. *)
Theorem issueResolution_partition (st : Store) (user : AuthUser) :
  outage st = None → knownIssueStatuses (db st) →
  ∃ m, issueResolutionMetrics st user = Ok m
       ∧ (rm_resolved m + rm_pending m + rm_assigned m = rm_total m)%nat.
Proof.
  intros Hup Hknown. destruct st as [d o]. cbn in Hup. subst o. cbn [db] in Hknown.
  rewrite issueResolution_up. eexists. split; [reflexivity|].
  cbn [rm_total rm_resolved rm_pending rm_assigned].
  apply filter_partition3.
  1-3: intros i; unfold isResolved, issueStatusIs;
       destruct (String.eqb_spec (i_status i) "resolved") as [->|];
       try reflexivity;
       destruct (String.eqb_spec (i_status i) "closed") as [->|];
       try reflexivity;
       destruct (String.eqb_spec (i_status i) "pending_assignment") as [->|];
       reflexivity.
  intros i Hi.
  assert (In i (issues d)) as Hin.
  { unfold visibleIssues, rowsWhere, selected in Hi.
    apply filter_In in Hi as [Hi _]. exact Hi. }
  specialize (Hknown i Hin). unfold isResolved, issueStatusIs.
  cbn [In] in Hknown.
  destruct Hknown as [<-|[<-|[<-|[<-|[<-|[]]]]]]; reflexivity.
Qed.

Lemma issueResolution_partition_witness :
  ∃ m, issueResolutionMetrics issueStore boss = Ok m
       ∧ (rm_resolved m + rm_pending m + rm_assigned m = rm_total m)%nat.
Proof.
  apply (issueResolution_partition issueStore boss); [reflexivity|].
  intros i Hi. cbn in Hi. destruct Hi as [<-|[<-|[]]]; cbn; tauto.
Defined.

(** X22: on a store that answers, the total of the issue metrics is the
    number of all issues for an administrator, and for any other caller the
    number of issues the caller reported, is suggested for, or is assigned
    to. *)
Theorem issueResolution_total_is_own_issues (st : Store) (user : AuthUser) :
  outage st = None →
  ∃ m, issueResolutionMetrics st user = Ok m
       ∧ rm_total m
         = List.length
             (List.filter (λ i, isAdminOf user || involvedIn (id user) i)
                          (issues (db st))).
Proof.
  intros Hup. destruct st as [d o]. cbn in Hup. subst o.
  rewrite issueResolution_up. eexists. split; [reflexivity|].
  cbn [rm_total db].
  destruct (isAdminOf user) eqn:Ha.
  - rewrite (visibleIssues_admin d user Ha). cbn [orb]. rewrite filter_all. reflexivity.
  - rewrite (visibleIssues_member d user Ha). cbn [orb]. f_equal.
    apply List.filter_ext. intros i. apply ownIssues_holds.
Qed.

Lemma issueResolution_total_is_own_issues_witness :
  ∃ m, issueResolutionMetrics issueStore ann = Ok m
       ∧ rm_total m
         = List.length
             (List.filter (λ i, isAdminOf ann || involvedIn (id ann) i)
                          (issues (db issueStore))).
Proof. apply (issueResolution_total_is_own_issues issueStore ann). reflexivity. Defined.
